(** * base_task.c: a periodic LITMUS^RT task that decodes video frames

    A shallow embedding of [base_task.c] and the properties of its
    periodic runtime (admission, mode transitions, the release/job loop)
    and of its per-period [job].

    The external world (libavformat/libavcodec/libswscale and liblitmus)
    is an oracle record [env]; every library call is logged as an event,
    so that a run of the program is a list of events together with the
    final value of the program's global variables. *)

From Stdlib Require Import ZArith List String Bool Lia.
Import ListNotations.
Open Scope Z_scope.

(** ** The C [int] type *)

Module Int.

Definition min_signed : Z := - 2 ^ 31.
Definition max_signed : Z := 2 ^ 31 - 1.

(** Two's complement wrap-around of a mathematical integer to 32 bits. *)
Definition wrap (z : Z) : Z := (z + 2 ^ 31) mod 2 ^ 32 - 2 ^ 31.

Definition add (a b : Z) : Z := wrap (a + b).

Definition in_range (z : Z) : Prop := min_signed <= z <= max_signed.

End Int.

(** ** The C [size_t] type (64 bits) *)

Module SizeT.

Definition modulus : Z := 2 ^ 64.

(** The conversion of an [int] to [size_t]. *)
Definition of_int (z : Z) : Z := z mod modulus.

Definition mul (a b : Z) : Z := (a * b) mod modulus.

End SizeT.

(** [sizeof(uint8_t)] *)
Definition sizeof_uint8_t : Z := 1.

(** A C pointer; only the distinction between [NULL] and the rest matters. *)
Definition pointer := Z.
Definition NULL : pointer := 0.

(** ** liblitmus: task parameters (litmus.h) *)

Inductive budget_policy_t :=
  NO_ENFORCEMENT | QUANTUM_ENFORCEMENT | PRECISE_ENFORCEMENT.
Inductive task_class_t := RT_CLASS_HARD | RT_CLASS_SOFT | RT_CLASS_BEST_EFFORT.
Inductive priority_t := LITMUS_LOWEST_PRIORITY | LITMUS_PRIORITY (p : Z).
Inductive task_mode_t := BACKGROUND_TASK | LITMUS_RT_TASK.

(** The fields of [struct rt_task] that [main] sets; times in nanoseconds. *)
Record rt_task := mk_rt_task {
  exec_cost : Z;
  period : Z;
  relative_deadline : Z;
  budget_policy : budget_policy_t;
  cls : task_class_t;
  priority : priority_t
}.

Definition PERIOD : Z := 100.
Definition RELATIVE_DEADLINE : Z := 100.
Definition EXEC_COST : Z := 10.

(** liblitmus' conversion of milliseconds to nanoseconds. *)
Definition ms2ns (ms : Z) : Z := ms * 1000000.

(** ** libav: streams and packets *)

Inductive AVMediaType :=
  AVMEDIA_TYPE_UNKNOWN | AVMEDIA_TYPE_VIDEO | AVMEDIA_TYPE_AUDIO
| AVMEDIA_TYPE_DATA | AVMEDIA_TYPE_SUBTITLE | AVMEDIA_TYPE_ATTACHMENT.

Definition is_video (t : AVMediaType) : bool :=
  match t with AVMEDIA_TYPE_VIDEO => true | _ => false end.

(** What the program looks at in an [AVPacket]: the stream it belongs to,
    and [got_picture], the value that [avcodec_decode_video2] stores in
    [frameFinished] when it is handed this packet. *)
Record AVPacket := mk_packet {
  stream_index : Z;
  got_picture : Z
}.

Definition blank_packet : AVPacket := mk_packet 0 0.

(** [AVERROR_EOF], what [av_read_frame] answers at the end of the stream. *)
Definition AVERROR_EOF : Z := -541478725.

(** ** The external world

    [frames k] is the answer of the [k]-th call of [av_read_frame]
    (counting from 0): its return value and the packet it fills in.  A
    producer is therefore any infinite sequence of answers; end of stream is
    a sequence that answers a negative value from some point on. *)
Record env := mk_env {
  open_input_ret : Z;                 (* avformat_open_input *)
  find_stream_info_ret : Z;           (* avformat_find_stream_info *)
  format_ctx : pointer;               (* the context avformat_open_input allocates *)
  streams : list AVMediaType;         (* codec_type of pFormatCtx->streams[i] *)
  stream_codec : Z -> pointer;        (* pFormatCtx->streams[i]->codec *)
  find_decoder_ret : pointer;         (* avcodec_find_decoder *)
  codec_open2_ret : Z;                (* avcodec_open2 *)
  frame_alloc_ret : pointer;          (* av_frame_alloc, first call *)
  frame_alloc_ret' : pointer;         (* av_frame_alloc, second call *)
  picture_size : Z;                   (* avpicture_get_size *)
  malloc_ret : pointer;               (* av_malloc *)
  init_litmus_ret : Z;                (* init_litmus *)
  set_rt_task_param_ret : Z;          (* set_rt_task_param *)
  task_mode_ret : task_mode_t -> Z;   (* task_mode *)
  frames : nat -> Z * AVPacket        (* av_read_frame *)
}.

(** ** The global variables of base_task.c

    [av_pos] is not a C variable: it is the position of the demuxer behind
    [pFormatCtx], the number of [av_read_frame] calls made so far.
    [index] is the variable that [job] increments in its last statement;
    base_task.c declares no variable of that name, and the embedding keeps it
    as an [int] cell of its own, distinct from [ind]. *)
Record globals := mk_globals {
  pFormatCtx : pointer;
  pCodecCtx : pointer;
  pCodec : pointer;
  pFrame : pointer;
  pFrameRGB : pointer;
  packet : AVPacket;
  buffer : pointer;
  img_convert_ctx : pointer;
  ind : Z;
  frameFinished : Z;
  vsi : Z;
  index : Z;
  av_pos : nat
}.

(** The values the globals have when [main] starts: the initialisers of the
    declarations, zero for the others (static storage). *)
Definition initial_globals : globals :=
  {| pFormatCtx := NULL; pCodecCtx := NULL; pCodec := NULL;
     pFrame := NULL; pFrameRGB := NULL; packet := blank_packet;
     buffer := NULL; img_convert_ctx := NULL;
     ind := 0; frameFinished := 0; vsi := 0; index := 0; av_pos := 0 |}.

Definition set_pFormatCtx (v : pointer) (g : globals) : globals :=
  mk_globals v (pCodecCtx g) (pCodec g) (pFrame g) (pFrameRGB g) (packet g)
    (buffer g) (img_convert_ctx g) (ind g) (frameFinished g) (vsi g) (index g)
    (av_pos g).

Definition set_pCodecCtx (v : pointer) (g : globals) : globals :=
  mk_globals (pFormatCtx g) v (pCodec g) (pFrame g) (pFrameRGB g) (packet g)
    (buffer g) (img_convert_ctx g) (ind g) (frameFinished g) (vsi g) (index g)
    (av_pos g).

Definition set_pCodec (v : pointer) (g : globals) : globals :=
  mk_globals (pFormatCtx g) (pCodecCtx g) v (pFrame g) (pFrameRGB g) (packet g)
    (buffer g) (img_convert_ctx g) (ind g) (frameFinished g) (vsi g) (index g)
    (av_pos g).

Definition set_pFrame (v : pointer) (g : globals) : globals :=
  mk_globals (pFormatCtx g) (pCodecCtx g) (pCodec g) v (pFrameRGB g) (packet g)
    (buffer g) (img_convert_ctx g) (ind g) (frameFinished g) (vsi g) (index g)
    (av_pos g).

Definition set_pFrameRGB (v : pointer) (g : globals) : globals :=
  mk_globals (pFormatCtx g) (pCodecCtx g) (pCodec g) (pFrame g) v (packet g)
    (buffer g) (img_convert_ctx g) (ind g) (frameFinished g) (vsi g) (index g)
    (av_pos g).

Definition set_buffer (v : pointer) (g : globals) : globals :=
  mk_globals (pFormatCtx g) (pCodecCtx g) (pCodec g) (pFrame g) (pFrameRGB g)
    (packet g) v (img_convert_ctx g) (ind g) (frameFinished g) (vsi g) (index g)
    (av_pos g).

Definition set_frameFinished (v : Z) (g : globals) : globals :=
  mk_globals (pFormatCtx g) (pCodecCtx g) (pCodec g) (pFrame g) (pFrameRGB g)
    (packet g) (buffer g) (img_convert_ctx g) (ind g) v (vsi g) (index g)
    (av_pos g).

Definition set_vsi (v : Z) (g : globals) : globals :=
  mk_globals (pFormatCtx g) (pCodecCtx g) (pCodec g) (pFrame g) (pFrameRGB g)
    (packet g) (buffer g) (img_convert_ctx g) (ind g) (frameFinished g) v
    (index g) (av_pos g).

Definition set_index (v : Z) (g : globals) : globals :=
  mk_globals (pFormatCtx g) (pCodecCtx g) (pCodec g) (pFrame g) (pFrameRGB g)
    (packet g) (buffer g) (img_convert_ctx g) (ind g) (frameFinished g) (vsi g)
    v (av_pos g).

(** ** Events *)

(** The library calls made inside [job]. *)
Inductive av_event :=
| AvReadFrame (ret : Z)
| AvcodecDecodeVideo2 (got : Z)
| SwsScale (ctx : pointer)
| AvFreePacket.

(** The calls made by [main] to libav, to the scheduler and to [fprintf]; a
    whole invocation of [job] is one event,
    with the calls it made and the value it returned ([None] when the
    invocation was still running at the end of the observation). *)
Inductive event :=
| Fprintf (fmt : string) (args : list string)
| AvRegisterAll
| AvformatOpenInput (path : string) (ret : Z)
| AvformatFindStreamInfo (ret : Z)
| AvcodecFindDecoder (ret : pointer)
| AvcodecOpen2 (ret : Z)
| AvFrameAlloc (ret : pointer)
| AvpictureGetSize (ret : Z)
| AvMalloc (size : Z) (ret : pointer)
| AvpictureFill
| InitLitmus (ret : Z)
| SetRtTaskParam (param : rt_task) (ret : Z)
| TaskMode (mode : task_mode_t) (ret : Z)
| SleepNextPeriod
| Job (calls : list av_event) (ret : option Z)
| AvFree (p : pointer)
| AvcodecClose
| AvformatCloseInput.

(** ** [job]  (base_task.c, lines 215-234) *)

(** [av_read_frame(pFormatCtx, &packet)]: the next answer of the producer
    is stored in [packet], and the demuxer moves on. *)
Definition av_read_frame (e : env) (g : globals) : Z * globals :=
  let '(r, pkt) := frames e (av_pos g) in
  (r, mk_globals (pFormatCtx g) (pCodecCtx g) (pCodec g) (pFrame g)
        (pFrameRGB g) pkt (buffer g) (img_convert_ctx g) (ind g)
        (frameFinished g) (vsi g) (index g) (S (av_pos g))).

(** The body of the [for] loop, for a loop counter [i]: the calls made, the
    globals and the loop counter after the body. *)
Definition job_body (g : globals) (i : Z) : list av_event * globals * Z :=
  if stream_index (packet g) =? vsi g then
    (* avcodec_decode_video2(pCodecCtx, pFrame, &frameFinished, &packet) *)
    let g1 := set_frameFinished (got_picture (packet g)) g in
    if negb (frameFinished g1 =? 0) then
      ([AvcodecDecodeVideo2 (frameFinished g1); SwsScale (img_convert_ctx g1);
        AvFreePacket], g1, Int.add i 1)
    else ([AvcodecDecodeVideo2 (frameFinished g1); AvFreePacket], g1, i)
  else ([AvFreePacket], g, i).

(** The [for] loop
    [for(; av_read_frame(pFormatCtx, &packet) >= 0 && i < ind + 10; i++)],
    followed for at most [n] iterations.  The boolean tells whether the loop
    was left ([false]: the test still held after [n] iterations). *)
Fixpoint job_for (n : nat) (e : env) (g : globals) (i : Z)
  : list av_event * globals * bool :=
  let '(r, g1) := av_read_frame e g in
  if (0 <=? r) && (i <? Int.add (ind g1) 10) then
    match n with
    | O => ([AvReadFrame r], g1, false)
    | S n' =>
        let '(tb, g2, i2) := job_body g1 i in
        let '(tl, g3, fin) := job_for n' e g2 (Int.add i2 1) in
        (AvReadFrame r :: tb ++ tl, g3, fin)
    end
  else ([AvReadFrame r], g1, true).

(** [job()], with [n] the bound on the iterations of its loop that are
    followed.  The result is the calls made, the globals at the end and the
    value returned, [None] when the loop did not end within [n] iterations. *)
Definition job (n : nat) (e : env) (g : globals)
  : list av_event * globals * option Z :=
  let i := ind g in
  let '(t, g1, fin) := job_for n e g i in
  if fin then
    (* index += 10;  return 0; *)
    (t, set_index (Int.add (index g1) 10) g1, Some 0)
  else (t, g1, None).

(** ** A monad for [main]

    A statement of [main] runs on the globals, logs the calls it makes, and
    either goes on to the next statement with a value, or executes a
    [return], or is still running when the observation ends. *)

Inductive outcome (A : Type) :=
| Next (a : A)
| Return (code : Z)
| Unfinished.
Arguments Next {A} a.
Arguments Return {A} code.
Arguments Unfinished {A}.

Definition prog (A : Type) : Type := globals -> list event * globals * outcome A.

Definition ret {A} (a : A) : prog A := fun g => ([], g, Next a).

Definition bind {A B} (m : prog A) (k : A -> prog B) : prog B :=
  fun g =>
    let '(t, g1, o) := m g in
    match o with
    | Next a => let '(t', g2, o') := k a g1 in (t ++ t', g2, o')
    | Return code => (t, g1, Return code)
    | Unfinished => (t, g1, Unfinished)
    end.

Declare Scope prog_scope.
Delimit Scope prog_scope with prog.
Notation "x <- m ;; k" := (bind m (fun x => k))
  (at level 61, m at next level, right associativity) : prog_scope.
Notation "m ;; k" := (bind m (fun _ => k))
  (at level 61, right associativity) : prog_scope.
Open Scope prog_scope.

(** [return code;] *)
Definition return_ {A} (code : Z) : prog A := fun g => ([], g, Return code).

(** The observation ends here. *)
Definition unfinished {A} : prog A := fun g => ([], g, Unfinished).

Definition call (ev : event) : prog unit := fun g => ([ev], g, Next tt).
Definition read {A} (f : globals -> A) : prog A := fun g => ([], g, Next (f g)).
Definition assign (f : globals -> globals) : prog unit := fun g => ([], f g, Next tt).

Definition fprintf (fmt : string) (args : list string) : prog unit :=
  call (Fprintf fmt args).

(** The macro [CALL(exp)]: [exp] is evaluated, and its outcome is reported on
    stderr; nothing else depends on it.  [text] is the stringification [#exp]
    of the argument. *)
Definition CALL (text : string) (exp : prog Z) : prog unit :=
  r <- exp ;;
  if negb (r =? 0) then fprintf "%s failed: %m\n" [text]
  else fprintf "%s ok.\n" [text].

(** ** [main]  (base_task.c, lines 77-212) *)

Section Runtime.

Variable e : env.

(** [main] is compiled against the prototype [int job(void)]: in this
    section the periodic job is any function of the globals that makes
    libav calls and returns an [int] (or does not finish).  The program
    itself is obtained below, with [job] for it. *)
Variable job_fn : globals -> list av_event * globals * option Z.

Definition avformat_open_input (path : string) : prog Z := fun g =>
  let r := open_input_ret e in
  ([AvformatOpenInput path r],
   if r =? 0 then set_pFormatCtx (format_ctx e) g else g, Next r).

Definition avformat_find_stream_info : prog Z := fun g =>
  ([AvformatFindStreamInfo (find_stream_info_ret e)], g,
   Next (find_stream_info_ret e)).

Definition avcodec_find_decoder : prog pointer := fun g =>
  ([AvcodecFindDecoder (find_decoder_ret e)], g, Next (find_decoder_ret e)).

Definition avcodec_open2 : prog Z := fun g =>
  ([AvcodecOpen2 (codec_open2_ret e)], g, Next (codec_open2_ret e)).

Definition av_frame_alloc (p : pointer) : prog pointer := fun g =>
  ([AvFrameAlloc p], g, Next p).

Definition avpicture_get_size : prog Z := fun g =>
  ([AvpictureGetSize (picture_size e)], g, Next (picture_size e)).

Definition av_malloc (size : Z) : prog pointer := fun g =>
  ([AvMalloc size (malloc_ret e)], g, Next (malloc_ret e)).

Definition init_litmus : prog Z := fun g =>
  ([InitLitmus (init_litmus_ret e)], g, Next (init_litmus_ret e)).

Definition set_rt_task_param (param : rt_task) : prog Z := fun g =>
  ([SetRtTaskParam param (set_rt_task_param_ret e)], g,
   Next (set_rt_task_param_ret e)).

Definition task_mode (mode : task_mode_t) : prog Z := fun g =>
  ([TaskMode mode (task_mode_ret e mode)], g, Next (task_mode_ret e mode)).

Definition sleep_next_period : prog unit := call SleepNextPeriod.

(** [do_exit = job();] *)
Definition call_job : prog Z := fun g =>
  let '(t, g1, r) := job_fn g in
  match r with
  | Some v => ([Job t (Some v)], g1, Next v)
  | None => ([Job t None], g1, Unfinished)
  end.

(** The loop [do { sleep_next_period(); do_exit = job(); } while (!do_exit);]
    followed for at most [n] iterations. *)
Fixpoint job_loop (n : nat) : prog unit :=
  match n with
  | O => unfinished
  | S n' =>
      sleep_next_period ;;
      do_exit <- call_job ;;
      if do_exit =? 0 then job_loop n' else ret tt
  end.

(** Steps 3 to 7 of [main] (lines 160-212): admission, the transition to
    real-time mode, the jobs, the transition back, the clean-up. *)
Definition rt_section (n : nat) (param : rt_task) : prog unit :=
  CALL "init_litmus()" init_litmus ;;
  CALL "set_rt_task_param(gettid(), &param)" (set_rt_task_param param) ;;
  CALL "task_mode(LITMUS_RT_TASK)" (task_mode LITMUS_RT_TASK) ;;
  job_loop n ;;
  CALL "task_mode(BACKGROUND_TASK)" (task_mode BACKGROUND_TASK) ;;
  p <- read buffer ;; call (AvFree p) ;;
  p <- read pFrameRGB ;; call (AvFree p) ;;
  p <- read pFrame ;; call (AvFree p) ;;
  call AvcodecClose ;;
  call AvformatCloseInput ;; assign (set_pFormatCtx NULL) ;;
  return_ 0.

(** The search of the video stream (lines 125-130), from stream [i] on;
    [ss] are the streams not yet looked at, so that the test
    [i < pFormatCtx->nb_streams] is the test that [ss] is not empty. *)
Fixpoint find_stream (ss : list AVMediaType) (i : Z) : prog unit :=
  match ss with
  | [] => ret tt
  | t :: ss' =>
      if is_video t then assign (set_vsi i)
      else find_stream ss' (Int.add i 1)
  end.

(** The parameters that [main] declares (lines 86-98); every field kept in
    [rt_task] is overwritten after [init_rt_task_param].  That call and the
    three [ms2ns] only fill the local [param]: they are not events of the
    runs. *)
Definition task_param : rt_task :=
  {| exec_cost := ms2ns EXEC_COST;
     period := ms2ns PERIOD;
     relative_deadline := ms2ns RELATIVE_DEADLINE;
     budget_policy := NO_ENFORCEMENT;
     cls := RT_CLASS_SOFT;
     priority := LITMUS_LOWEST_PRIORITY |}.

(** Lines 135-212: what follows the selection of the stream. *)
Definition decode_setup (n : nat) (param : rt_task) : prog unit :=
  v <- read vsi ;; assign (set_pCodecCtx (stream_codec e v)) ;;
  c <- avcodec_find_decoder ;; assign (set_pCodec c) ;;
  c <- read pCodec ;;
  if c =? NULL then (fprintf "Unsupported codec\n" [] ;; return_ (-1)) else
  r <- avcodec_open2 ;;
  if r <? 0 then (fprintf "Could not open codec\n" [] ;; return_ (-1)) else
  f <- av_frame_alloc (frame_alloc_ret e) ;; assign (set_pFrame f) ;;
  f <- av_frame_alloc (frame_alloc_ret' e) ;; assign (set_pFrameRGB f) ;;
  f <- read pFrameRGB ;;
  if f =? NULL then return_ (-1) else
  size <- avpicture_get_size ;;
  (* av_malloc(size * sizeof(uint8_t)): the product is a size_t *)
  b <- av_malloc (SizeT.mul (SizeT.of_int size) sizeof_uint8_t) ;;
  assign (set_buffer b) ;;
  call AvpictureFill ;;
  rt_section n param.

Definition main_with (n : nat) (argc : Z) (argv : list string) : prog unit :=
  let param := task_param in
  if argc <? 2 then
    (fprintf "USAGE: base_task /path/to/video/file" [] ;; return_ 0)
  else
  call AvRegisterAll ;;
  r <- avformat_open_input (nth 1 argv EmptyString) ;;
  if negb (r =? 0) then
    (fprintf "Unable to open video file\n" [] ;; return_ (-1))
  else
  r <- avformat_find_stream_info ;;
  if r <? 0 then
    (fprintf "Unable to open video stream\n" [] ;; return_ (-1))
  else
  assign (set_vsi (-1)) ;;
  find_stream (streams e) 0 ;;
  (* if(vsi = -1): an assignment, whose value is tested *)
  assign (set_vsi (-1)) ;;
  v <- read vsi ;;
  if negb (v =? 0) then
    (fprintf "No stream found\n" [] ;; return_ (-1))
  else
  decode_setup n param.

End Runtime.

(** The program: [main] with [job]; [jn] bounds the iterations followed in
    each invocation of [job], [n] the iterations of the job loop. *)
Definition main (jn n : nat) (e : env) (argc : Z) (argv : list string)
  : list event * globals * outcome unit :=
  main_with e (job jn e) n argc argv initial_globals.

(** ** Observations on runs *)

Definition trace_of {A} (r : list event * globals * outcome A) : list event :=
  fst (fst r).
Definition globals_of {A} (r : list event * globals * outcome A) : globals :=
  snd (fst r).
Definition outcome_of {A} (r : list event * globals * outcome A) : outcome A :=
  snd r.

Definition is_read (ev : av_event) : bool :=
  match ev with AvReadFrame _ => true | _ => false end.

(** The number of [av_read_frame] calls among the calls of a job. *)
Definition reads (t : list av_event) : nat := List.length (filter is_read t).

Definition is_sleep (ev : event) : bool :=
  match ev with SleepNextPeriod => true | _ => false end.

Definition is_job (ev : event) : bool :=
  match ev with Job _ _ => true | _ => false end.

(** [task_mode(BACKGROUND_TASK)], the exit from real-time mode. *)
Definition is_exit_rt (ev : event) : bool :=
  match ev with TaskMode BACKGROUND_TASK _ => true | _ => false end.

(** The values returned by the job invocations of a run, in order. *)
Fixpoint job_returns (t : list event) : list (option Z) :=
  match t with
  | [] => []
  | Job _ r :: t' => r :: job_returns t'
  | _ :: t' => job_returns t'
  end.

(** The line that [CALL] prints for an expression that evaluated to [r]. *)
Definition report (text : string) (r : Z) : event :=
  if negb (r =? 0) then Fprintf "%s failed: %m\n" [text]
  else Fprintf "%s ok.\n" [text].

(** One period: the wait for the release, then one job. *)
Definition wait_run (j : list av_event * option Z) : list event :=
  [SleepNextPeriod; Job (fst j) (snd j)].

(** The calls of steps 3 and 4 of [main], up to the job loop. *)
Definition enter_calls (e : env) (param : rt_task) : list event :=
  [InitLitmus (init_litmus_ret e);
   report "init_litmus()" (init_litmus_ret e);
   SetRtTaskParam param (set_rt_task_param_ret e);
   report "set_rt_task_param(gettid(), &param)" (set_rt_task_param_ret e);
   TaskMode LITMUS_RT_TASK (task_mode_ret e LITMUS_RT_TASK);
   report "task_mode(LITMUS_RT_TASK)" (task_mode_ret e LITMUS_RT_TASK)].

(** The calls of steps 6 and 7 of [main], after the job loop. *)
Definition exit_calls (e : env) (g : globals) : list event :=
  [TaskMode BACKGROUND_TASK (task_mode_ret e BACKGROUND_TASK);
   report "task_mode(BACKGROUND_TASK)" (task_mode_ret e BACKGROUND_TASK);
   AvFree (buffer g); AvFree (pFrameRGB g); AvFree (pFrame g);
   AvcodecClose; AvformatCloseInput].

(** The reading of "no [sleep_next_period] before a successful
    [task_mode(LITMUS_RT_TASK)]" on a trace; [entered] tells whether such a
    call has been seen. *)
Fixpoint waits_guarded (entered : bool) (t : list event) : bool :=
  match t with
  | [] => true
  | TaskMode LITMUS_RT_TASK r :: t' => waits_guarded (entered || (r =? 0)) t'
  | SleepNextPeriod :: t' => entered && waits_guarded entered t'
  | _ :: t' => waits_guarded entered t'
  end.

(** Neither a wait nor a job. *)
Definition outside_loop (ev : event) : Prop :=
  is_sleep ev = false /\ is_job ev = false.

(** In the calls of a job: a decode that completed a frame is followed at
    once by [sws_scale] with context [ctx], and [sws_scale] is called nowhere
    else. *)
Fixpoint scaled_when_finished (ctx : pointer) (t : list av_event) : bool :=
  match t with
  | [] => true
  | AvcodecDecodeVideo2 got :: t' =>
      if got =? 0 then
        match t' with
        | SwsScale _ :: _ => false
        | _ => scaled_when_finished ctx t'
        end
      else
        match t' with
        | SwsScale c :: t'' => (c =? ctx) && scaled_when_finished ctx t''
        | _ => false
        end
  | SwsScale _ :: _ => false
  | _ :: t' => scaled_when_finished ctx t'
  end.

(** A call of [sws_scale] has the context [ctx]. *)
Definition scaler_ctx_is (ctx : pointer) (ev : av_event) : Prop :=
  match ev with SwsScale c => c = ctx | _ => True end.

(** In a run: every job scales the frames it completes, and only those, with
    the context [ctx]. *)
Definition jobs_scaled (ctx : pointer) (ev : event) : Prop :=
  match ev with
  | Job t _ => scaled_when_finished ctx t = true /\ Forall (scaler_ctx_is ctx) t
  | _ => True
  end.


(** The states in which the loop counter of [job] cannot overflow. *)
Definition ind_ok (g : globals) : Prop :=
  Int.min_signed <= ind g <= Int.max_signed - 11.


(** The variables that [job] leaves alone. *)
Definition same_frame (g g' : globals) : Prop :=
  ind g' = ind g /\ img_convert_ctx g' = img_convert_ctx g /\
  vsi g' = vsi g /\ index g' = index g.

(** [holds Inv Q m]: from globals that satisfy [Inv], the statement [m] makes
    only calls that satisfy [Q], and leaves globals that satisfy [Inv]. *)
Definition holds {A} (Inv : globals -> Prop) (Q : event -> Prop) (m : prog A)
  : Prop :=
  forall g, Inv g -> Inv (globals_of (m g)) /\ Forall Q (trace_of (m g)).

(** [Job] events apart, every call satisfies [Q]. *)
Definition plain (Q : event -> Prop) : Prop :=
  forall ev, is_job ev = false -> Q ev.

(** [ind] is [i0] and [img_convert_ctx] is [c]. *)
Definition untouched (i0 : Z) (c : pointer) (g : globals) : Prop :=
  ind g = i0 /\ img_convert_ctx g = c.

(** ** Concrete worlds *)

(** A world in which every set-up call succeeds, with the given streams,
    scheduler answers and producer. *)
Definition world (ss : list AVMediaType) (il sp : Z) (tm : task_mode_t -> Z)
    (fr : nat -> Z * AVPacket) : env :=
  {| open_input_ret := 0; find_stream_info_ret := 0; format_ctx := 1;
     streams := ss; stream_codec := fun _ => 2; find_decoder_ret := 3;
     codec_open2_ret := 0; frame_alloc_ret := 4; frame_alloc_ret' := 5;
     picture_size := 6220800; malloc_ret := 6;
     init_litmus_ret := il; set_rt_task_param_ret := sp; task_mode_ret := tm;
     frames := fr |}.

(** A producer at the end of its stream. *)
Definition eos : nat -> Z * AVPacket := fun _ => (AVERROR_EOF, blank_packet).

(** [k] packets of stream [s], each completing a frame or not according to
    [got], then the end of the stream. *)
Definition packets (k : nat) (s got : Z) : nat -> Z * AVPacket :=
  fun j =>
    if (j <? k)%nat then (0, mk_packet s got) else (AVERROR_EOF, blank_packet).

Definition argv2 : list string := ["base_task"%string; "video.mp4"%string].

(** A job that asks for the exit at its first invocation. *)
Definition stop_job (g : globals) : list av_event * globals * option Z :=
  ([], g, Some 1).

(** The producer is at the end of its stream; the scheduler accepts all. *)
Definition eos_world : env :=
  world [AVMEDIA_TYPE_VIDEO] 0 0 (fun _ => 0) eos.

(** Twenty-five packets of the audio stream, stream 1, of a file whose video
    stream is stream 0. *)
Definition audio_world : env :=
  world [AVMEDIA_TYPE_VIDEO; AVMEDIA_TYPE_AUDIO] 0 0 (fun _ => 0)
    (packets 25 1 0).

(** Twenty-five packets of the video stream, each completing a frame. *)
Definition video_world : env :=
  world [AVMEDIA_TYPE_VIDEO] 0 0 (fun _ => 0) (packets 25 0 1).

(** [task_mode(LITMUS_RT_TASK)] fails. *)
Definition no_rt_world : env :=
  world [AVMEDIA_TYPE_VIDEO] 0 0
    (fun m => match m with LITMUS_RT_TASK => -1 | BACKGROUND_TASK => 0 end) eos.


(** ** Further observations *)

Definition is_free (ev : av_event) : bool :=
  match ev with AvFreePacket => true | _ => false end.

Definition is_scale (ev : av_event) : bool :=
  match ev with SwsScale _ => true | _ => false end.

Definition is_decode (ev : av_event) : bool :=
  match ev with AvcodecDecodeVideo2 _ => true | _ => false end.

(** The numbers of [av_free_packet] and of [sws_scale] calls of a job. *)
Definition frees (t : list av_event) : nat := List.length (filter is_free t).
Definition scales (t : list av_event) : nat := List.length (filter is_scale t).

(** The calls to the scheduler, the jobs included. *)
Definition is_sched (ev : event) : bool :=
  match ev with
  | InitLitmus _ | SetRtTaskParam _ _ | TaskMode _ _ | SleepNextPeriod
  | Job _ _ => true
  | _ => false
  end.

(** The calls that release what the set-up acquired. *)
Definition is_cleanup (ev : event) : bool :=
  match ev with
  | AvFree _ | AvcodecClose | AvformatCloseInput => true
  | _ => false
  end.

(** The three tests of lines 137-149: a decoder was found, the codec was
    opened, the second frame was allocated. *)
Definition setup_ok (e : env) : bool :=
  negb (find_decoder_ret e =? NULL) && negb (codec_open2_ret e <? 0)
  && negb (frame_alloc_ret' e =? NULL).

(** The calls of lines 135-152 when the three tests pass. *)
Definition setup_calls (e : env) : list event :=
  [AvcodecFindDecoder (find_decoder_ret e); AvcodecOpen2 (codec_open2_ret e);
   AvFrameAlloc (frame_alloc_ret e); AvFrameAlloc (frame_alloc_ret' e);
   AvpictureGetSize (picture_size e);
   AvMalloc (SizeT.mul (SizeT.of_int (picture_size e)) sizeof_uint8_t)
     (malloc_ret e);
   AvpictureFill].

(** The globals after lines 135-152. *)
Definition setup_globals (e : env) (g : globals) : globals :=
  set_buffer (malloc_ret e)
    (set_pFrameRGB (frame_alloc_ret' e)
       (set_pFrame (frame_alloc_ret e)
          (set_pCodec (find_decoder_ret e)
             (set_pCodecCtx (stream_codec e (vsi g)) g)))).

(** The globals with which line 160 is reached when stream 0 was selected:
    the input is open, the codec, the frames and the buffer are set up. *)
Definition ready_globals (e : env) : globals :=
  setup_globals e (set_vsi 0 (set_pFormatCtx (format_ctx e) initial_globals)).

(** The calls of lines 135-152: the look-up and the opening of the codec,
    the allocations. *)
Definition is_codec_call (ev : event) : bool :=
  match ev with
  | AvcodecFindDecoder _ | AvcodecOpen2 _ | AvFrameAlloc _
  | AvpictureGetSize _ | AvMalloc _ _ | AvpictureFill => true
  | _ => false
  end.

(** The pointers and the stream index are the same in [g'] as in [g]. *)
Definition same_pointers (g g' : globals) : Prop :=
  pFormatCtx g' = pFormatCtx g /\ pCodecCtx g' = pCodecCtx g /\
  pCodec g' = pCodec g /\ pFrame g' = pFrame g /\
  pFrameRGB g' = pFrameRGB g /\ buffer g' = buffer g /\ vsi g' = vsi g.

(** A job that stops at its third invocation: it counts in [index]. *)
Definition third_job (g : globals) : list av_event * globals * option Z :=
  ([], set_index (index g + 1) g, Some (if index g =? 2 then 1 else 0)).

(** Three packets of the audio stream, then the end of the stream. *)
Definition short_world : env :=
  world [AVMEDIA_TYPE_VIDEO; AVMEDIA_TYPE_AUDIO] 0 0 (fun _ => 0)
    (packets 3 1 0).

(** A negative answer of [avpicture_get_size]; all the rest succeeds. *)
Definition no_size_world : env :=
  {| open_input_ret := 0; find_stream_info_ret := 0; format_ctx := 1;
     streams := [AVMEDIA_TYPE_VIDEO]; stream_codec := fun _ => 2;
     find_decoder_ret := 3; codec_open2_ret := 0; frame_alloc_ret := 4;
     frame_alloc_ret' := 5; picture_size := -22; malloc_ret := NULL;
     init_litmus_ret := 0; set_rt_task_param_ret := 0;
     task_mode_ret := fun _ => 0; frames := eos |}.

(** The input cannot be opened. *)
Definition no_input_world : env :=
  {| open_input_ret := -2; find_stream_info_ret := 0; format_ctx := 1;
     streams := [AVMEDIA_TYPE_VIDEO]; stream_codec := fun _ => 2;
     find_decoder_ret := 3; codec_open2_ret := 0; frame_alloc_ret := 4;
     frame_alloc_ret' := 5; picture_size := 6220800; malloc_ret := 6;
     init_litmus_ret := 0; set_rt_task_param_ret := 0;
     task_mode_ret := fun _ => 0; frames := eos |}.

(** The input opens, but its streams cannot be analysed. *)
Definition no_info_world : env :=
  {| open_input_ret := 0; find_stream_info_ret := -1; format_ctx := 1;
     streams := []; stream_codec := fun _ => 2;
     find_decoder_ret := 3; codec_open2_ret := 0; frame_alloc_ret := 4;
     frame_alloc_ret' := 5; picture_size := 6220800; malloc_ret := 6;
     init_litmus_ret := 0; set_rt_task_param_ret := 0;
     task_mode_ret := fun _ => 0; frames := eos |}.

(** No decoder is known for the codec of the stream. *)
Definition no_decoder_world : env :=
  {| open_input_ret := 0; find_stream_info_ret := 0; format_ctx := 1;
     streams := [AVMEDIA_TYPE_VIDEO]; stream_codec := fun _ => 2;
     find_decoder_ret := NULL; codec_open2_ret := 0; frame_alloc_ret := 4;
     frame_alloc_ret' := 5; picture_size := 6220800; malloc_ret := 6;
     init_litmus_ret := 0; set_rt_task_param_ret := 0;
     task_mode_ret := fun _ => 0; frames := eos |}.

(** The first frame and the conversion buffer cannot be allocated; all the
    rest succeeds. *)
Definition no_memory_world : env :=
  {| open_input_ret := 0; find_stream_info_ret := 0; format_ctx := 1;
     streams := [AVMEDIA_TYPE_VIDEO]; stream_codec := fun _ => 2;
     find_decoder_ret := 3; codec_open2_ret := 0; frame_alloc_ret := NULL;
     frame_alloc_ret' := 5; picture_size := 6220800; malloc_ret := NULL;
     init_litmus_ret := 0; set_rt_task_param_ret := 0;
     task_mode_ret := fun _ => 0; frames := eos |}.

(** The library calls of all the jobs of a run, in order. *)
Fixpoint job_calls (t : list event) : list av_event :=
  match t with
  | [] => []
  | Job c _ :: t' => c ++ job_calls t'
  | _ :: t' => job_calls t'
  end.

(** * Properties *)

(** ** Arithmetic on [int] *)

Lemma wrap_small z : Int.in_range z -> Int.wrap z = z.
Proof.
  unfold Int.in_range, Int.min_signed, Int.max_signed, Int.wrap; intros H.
  rewrite Z.mod_small; lia.
Qed.

Lemma add_small a b : Int.in_range (a + b) -> Int.add a b = a + b.
Proof. apply wrap_small. Qed.

(** ** The loop of [job] *)

Lemma same_frame_refl g : same_frame g g.
Proof. repeat split. Qed.

Lemma same_frame_trans g1 g2 g3 :
  same_frame g1 g2 -> same_frame g2 g3 -> same_frame g1 g3.
Proof. unfold same_frame; intuition congruence. Qed.

Lemma av_read_frame_frame e g : same_frame g (snd (av_read_frame e g)).
Proof.
  unfold av_read_frame; destruct (frames e (av_pos g)); repeat split.
Qed.

Lemma job_body_frame g i : same_frame g (snd (fst (job_body g i))).
Proof.
  unfold job_body.
  destruct (stream_index (packet g) =? vsi g); [|apply same_frame_refl].
  destruct (negb _); repeat split.
Qed.

Lemma job_for_frame n e : forall g i,
  same_frame g (snd (fst (job_for n e g i))).
Proof.
  induction n as [|n IH]; intros g i; simpl;
    pose proof (av_read_frame_frame e g) as Hr;
    destruct (av_read_frame e g) as [r g1]; simpl in Hr;
    destruct ((0 <=? r) && (i <? Int.add (ind g1) 10)); simpl; auto.
  pose proof (job_body_frame g1 i) as Hb.
  destruct (job_body g1 i) as [[tb g2] i2]; simpl in Hb.
  specialize (IH g2 (Int.add i2 1)).
  destruct (job_for n e g2 (Int.add i2 1)) as [[tl g3] fin]; simpl in *.
  eauto using same_frame_trans.
Qed.

(** The loop counter after the body: it went up by one exactly when a frame
    was completed. *)
Lemma job_body_counter g i :
  let i2 := snd (job_body g i) in i2 = i \/ i2 = Int.add i 1.
Proof.
  unfold job_body.
  destruct (stream_index (packet g) =? vsi g); simpl; auto.
  destruct (negb _); simpl; auto.
Qed.

Lemma job_body_reads g i : reads (fst (fst (job_body g i))) = 0%nat.
Proof.
  unfold job_body.
  destruct (stream_index (packet g) =? vsi g); simpl; auto.
  destruct (negb _); reflexivity.
Qed.

Lemma reads_app t1 t2 : reads (t1 ++ t2) = (reads t1 + reads t2)%nat.
Proof. unfold reads; rewrite filter_app, length_app; reflexivity. Qed.

(** From a counter [i] not below [ind], with [n] iterations allowed where
    [ind + 10 - i] are needed, the loop is left, after at most
    [ind + 10 - i] iterations and one more [av_read_frame]. *)
Lemma job_for_bounded n e : forall g i,
  ind_ok g -> Int.min_signed <= i ->
  (Z.to_nat (ind g + 10 - i) <= n)%nat ->
  snd (job_for n e g i) = true /\
  (reads (fst (fst (job_for n e g i))) <= Z.to_nat (ind g + 10 - i) + 1)%nat.
Proof.
  unfold ind_ok, Int.min_signed, Int.max_signed.
  induction n as [|n IH]; intros g i Hg Hi Hn; simpl;
    pose proof (av_read_frame_frame e g) as (Hind & _);
    destruct (av_read_frame e g) as [r g1]; simpl in Hind;
    (rewrite add_small, Hind
      by (rewrite Hind; unfold Int.in_range, Int.min_signed, Int.max_signed; lia));
    destruct (0 <=? r); simpl;
    try (split; [reflexivity | unfold reads; simpl; lia]);
    destruct (Z.ltb_spec i (ind g + 10)) as [Hlt|Hge];
    try (split; [reflexivity | unfold reads; simpl; lia]).
  - lia.
  - pose proof (job_body_frame g1 i) as (Hb & _).
    pose proof (job_body_counter g1 i) as Hc.
    pose proof (job_body_reads g1 i) as Hrb.
    destruct (job_body g1 i) as [[tb g2] i2]; simpl in Hb, Hc, Hrb.
    assert (Hi2 : i2 = i \/ i2 = i + 1).
    { destruct Hc as [->| ->]; auto. right. apply add_small.
      unfold Int.in_range, Int.min_signed, Int.max_signed; lia. }
    assert (Hnext : Int.add i2 1 = i2 + 1).
    { apply add_small.
      unfold Int.in_range, Int.min_signed, Int.max_signed; lia. }
    rewrite Hnext.
    assert (Hg2 : ind g2 = ind g) by congruence.
    destruct (IH g2 (i2 + 1)) as [Hfin Hreads];
      [unfold ind_ok, Int.min_signed, Int.max_signed; lia | lia | rewrite Hg2; lia |].
    destruct (job_for n e g2 (i2 + 1)) as [[tl g3] fin]; simpl in *.
    split; [assumption|].
    change (AvReadFrame r :: tb ++ tl) with ([AvReadFrame r] ++ tb ++ tl).
    rewrite !reads_app, Hrb. rewrite Hg2 in Hreads.
    unfold reads at 1; simpl. lia.
Qed.

(** [sws_scale] is called exactly after the decodes that completed a frame,
    with the context found in [img_convert_ctx] when the loop started. *)
Lemma job_for_scaled n e : forall g i,
  scaled_when_finished (img_convert_ctx g) (fst (fst (job_for n e g i))) = true.
Proof.
  induction n as [|n IH]; intros g i; simpl;
    pose proof (av_read_frame_frame e g) as (_ & Hctx & _);
    destruct (av_read_frame e g) as [r g1]; simpl in Hctx;
    destruct ((0 <=? r) && (i <? Int.add (ind g1) 10)); simpl; auto.
  unfold job_body.
  destruct (stream_index (packet g1) =? vsi g1).
  - simpl frameFinished.
    destruct (got_picture (packet g1) =? 0) eqn:Hgot; simpl negb; cbv iota.
    + specialize (IH (set_frameFinished (got_picture (packet g1)) g1) (Int.add i 1)).
      destruct (job_for n e _ (Int.add i 1)) as [[tl g3] fin].
      simpl in *. rewrite Hgot. rewrite <- Hctx. exact IH.
    + specialize (IH (set_frameFinished (got_picture (packet g1)) g1)
                     (Int.add (Int.add i 1) 1)).
      destruct (job_for n e _ (Int.add (Int.add i 1) 1)) as [[tl g3] fin].
      simpl in *. rewrite Hgot, Hctx, Z.eqb_refl. rewrite <- Hctx. exact IH.
  - specialize (IH g1 (Int.add i 1)).
    destruct (job_for n e g1 (Int.add i 1)) as [[tl g3] fin].
    simpl in *. rewrite <- Hctx. exact IH.
Qed.

(** ** [job] *)

(** What one invocation of [job] does to the variables it does not use for
    its packets: only [index] moves, and only when [job] returns. *)
Lemma job_frame jn e g :
  let g' := snd (fst (job jn e g)) in
  ind g' = ind g /\ img_convert_ctx g' = img_convert_ctx g /\ vsi g' = vsi g.
Proof.
  unfold job. pose proof (job_for_frame jn e g (ind g)) as (H1 & H2 & H3 & _).
  destruct (job_for jn e g (ind g)) as [[t g1] fin]; simpl in *.
  destruct fin; simpl; auto.
Qed.

Lemma job_scaled jn e g :
  scaled_when_finished (img_convert_ctx g) (fst (fst (job jn e g))) = true.
Proof.
  unfold job. pose proof (job_for_scaled jn e g (ind g)) as H.
  destruct (job_for jn e g (ind g)) as [[t g1] fin]; simpl in *.
  destruct fin; exact H.
Qed.

(** In a state where the counter cannot overflow, ten iterations are all
    that [job] needs: it returns 0, after at most eleven [av_read_frame]. *)
Lemma job_runs jn e g :
  ind_ok g -> (10 <= jn)%nat ->
  exists t g', job jn e g = (t, g', Some 0) /\
    ind g' = ind g /\ index g' = Int.add (index g) 10 /\ (reads t <= 11)%nat.
Proof.
  intros Hg Hjn. unfold job.
  pose proof (job_for_frame jn e g (ind g)) as (H1 & _ & _ & H4).
  destruct (job_for_bounded jn e g (ind g) Hg) as [Hfin Hreads];
    [unfold ind_ok in Hg; lia | replace (ind g + 10 - ind g) with 10 by lia; exact Hjn |].
  replace (ind g + 10 - ind g) with 10 in Hreads by lia.
  destruct (job_for jn e g (ind g)) as [[t g1] fin]; simpl in *; subst fin.
  exists t, (set_index (Int.add (index g1) 10) g1).
  change (Z.to_nat 10) with 10%nat in Hreads.
  repeat split; simpl; try assumption; try congruence; lia.
Qed.

(** ** The monad *)

Lemma CALL_run text (exp : prog Z) ev r g :
  exp g = ([ev], g, Next r) ->
  CALL text exp g = ([ev; report text r], g, Next tt).
Proof.
  intros H. unfold CALL, bind, report, fprintf, call. rewrite H.
  destruct (negb (r =? 0)); reflexivity.
Qed.

(** ** The job loop *)

Section Loop.

Variable e : env.
Variable job_fn : globals -> list av_event * globals * option Z.

Lemma job_loop_step n g :
  job_loop job_fn (S n) g =
    let '(t, g1, r) := job_fn g in
    match r with
    | None => (wait_run (t, None), g1, Unfinished)
    | Some v =>
        if v =? 0 then
          let '(tl, g2, o) := job_loop job_fn n g1 in
          (wait_run (t, Some v) ++ tl, g2, o)
        else (wait_run (t, Some v), g1, Next tt)
    end.
Proof.
  cbn [job_loop]. unfold bind, sleep_next_period, call, call_job, wait_run.
  destruct (job_fn g) as [[t g1] [v|]]; simpl; [|reflexivity].
  destruct (v =? 0); [|reflexivity].
  destruct (job_loop job_fn n g1) as [[tl g2] o]; reflexivity.
Qed.

(** The loop never executes a [return]. *)
Lemma job_loop_no_return n : forall g code,
  outcome_of (job_loop job_fn n g) <> Return code.
Proof.
  induction n as [|n IH]; intros g code; [discriminate|].
  rewrite job_loop_step.
  destruct (job_fn g) as [[t g1] [v|]]; [|discriminate].
  destruct (v =? 0); [|discriminate].
  specialize (IH g1 code).
  destruct (job_loop job_fn n g1) as [[tl g2] o]; exact IH.
Qed.

(** The calls of the loop: periods, each a wait followed by a job. *)
Lemma job_loop_periods n : forall g,
  exists js, trace_of (job_loop job_fn n g) = flat_map wait_run js.
Proof.
  induction n as [|n IH]; intros g; [exists []; reflexivity|].
  rewrite job_loop_step.
  destruct (job_fn g) as [[t g1] [v|]];
    [|exists [(t, None)]; reflexivity].
  destruct (v =? 0); [|exists [(t, Some v)]; reflexivity].
  destruct (IH g1) as [js Hjs].
  destruct (job_loop job_fn n g1) as [[tl g2] o].
  exists ((t, Some v) :: js). unfold trace_of in *; simpl in *.
  now rewrite Hjs.
Qed.

(** What follows the job loop in [main]. *)
Lemma rt_section_run n param g :
  rt_section e job_fn n param g =
    let '(tl, g1, o) := job_loop job_fn n g in
    match o with
    | Next _ =>
        (enter_calls e param ++ tl ++ exit_calls e g1,
         set_pFormatCtx NULL g1, Return 0)
    | Return code => (enter_calls e param ++ tl, g1, Return code)
    | Unfinished => (enter_calls e param ++ tl, g1, Unfinished)
    end.
Proof.
  unfold rt_section.
  unfold bind at 1. erewrite CALL_run by reflexivity.
  unfold bind at 1. erewrite CALL_run by reflexivity.
  unfold bind at 1. erewrite CALL_run by reflexivity.
  unfold bind at 1.
  destruct (job_loop job_fn n g) as [[tl g1] [[]|code|]]; try reflexivity.
  unfold bind at 1. erewrite CALL_run by reflexivity.
  cbn. reflexivity.
Qed.

End Loop.

(** ** Traces made of periods *)

Lemma report_print text r : exists fmt, report text r = Fprintf fmt [text].
Proof. unfold report; destruct (negb (r =? 0)); eauto. Qed.

Lemma sleeps_periods js :
  List.length (filter is_sleep (flat_map wait_run js)) = List.length js.
Proof. induction js as [|j js IH]; simpl; congruence. Qed.

Lemma exit_rt_periods js : filter is_exit_rt (flat_map wait_run js) = [].
Proof. induction js as [|j js IH]; simpl; congruence. Qed.

Lemma job_returns_periods js : job_returns (flat_map wait_run js) = map snd js.
Proof. induction js as [|j js IH]; simpl; congruence. Qed.

Lemma job_returns_app t1 t2 :
  job_returns (t1 ++ t2) = job_returns t1 ++ job_returns t2.
Proof.
  induction t1 as [|ev t1 IH]; simpl; [reflexivity|].
  destruct ev; simpl; congruence.
Qed.

Lemma sleeps_enter e param : filter is_sleep (enter_calls e param) = [].
Proof.
  unfold enter_calls.
  destruct (report_print "init_litmus()" (init_litmus_ret e)) as [f1 ->].
  destruct (report_print "set_rt_task_param(gettid(), &param)"
              (set_rt_task_param_ret e)) as [f2 ->].
  destruct (report_print "task_mode(LITMUS_RT_TASK)"
              (task_mode_ret e LITMUS_RT_TASK)) as [f3 ->].
  reflexivity.
Qed.

Lemma exit_rt_enter e param : filter is_exit_rt (enter_calls e param) = [].
Proof.
  unfold enter_calls.
  destruct (report_print "init_litmus()" (init_litmus_ret e)) as [f1 ->].
  destruct (report_print "set_rt_task_param(gettid(), &param)"
              (set_rt_task_param_ret e)) as [f2 ->].
  destruct (report_print "task_mode(LITMUS_RT_TASK)"
              (task_mode_ret e LITMUS_RT_TASK)) as [f3 ->].
  reflexivity.
Qed.

Lemma job_returns_enter e param : job_returns (enter_calls e param) = [].
Proof.
  unfold enter_calls.
  destruct (report_print "init_litmus()" (init_litmus_ret e)) as [f1 ->].
  destruct (report_print "set_rt_task_param(gettid(), &param)"
              (set_rt_task_param_ret e)) as [f2 ->].
  destruct (report_print "task_mode(LITMUS_RT_TASK)"
              (task_mode_ret e LITMUS_RT_TASK)) as [f3 ->].
  reflexivity.
Qed.


Lemma outside_loop_exit e g : Forall outside_loop (exit_calls e g).
Proof.
  unfold exit_calls.
  destruct (report_print "task_mode(BACKGROUND_TASK)"
              (task_mode_ret e BACKGROUND_TASK)) as [f ->].
  repeat constructor.
Qed.

(** ** A job that always asks to continue *)

Section Continue.

Variable job_fn : globals -> list av_event * globals * option Z.
Variable Inv : globals -> Prop.

Hypothesis job_continues : forall g, Inv g ->
  exists t g', job_fn g = (t, g', Some 0) /\ Inv g'.

(** The loop is then never left: [n] iterations are [n] periods. *)
Lemma job_loop_continues n : forall g, Inv g ->
  exists js g',
    job_loop job_fn n g = (flat_map wait_run js, g', Unfinished) /\
    map snd js = repeat (Some 0) n /\ Inv g'.
Proof.
  induction n as [|n IH]; intros g Hg.
  - exists [], g. repeat split; assumption.
  - rewrite job_loop_step.
    destruct (job_continues g Hg) as (t & g1 & -> & Hg1).
    simpl Z.eqb; cbv iota.
    destruct (IH g1 Hg1) as (js & g2 & -> & Hjs & Hg2).
    exists ((t, Some 0) :: js), g2. simpl. repeat split; congruence.
Qed.

Lemma rt_section_continues e n param g : Inv g ->
  exists js g',
    rt_section e job_fn n param g =
      (enter_calls e param ++ flat_map wait_run js, g', Unfinished) /\
    map snd js = repeat (Some 0) n /\ Inv g'.
Proof.
  intros Hg. rewrite rt_section_run.
  destruct (job_loop_continues n g Hg) as (js & g' & -> & Hjs & Hg').
  eauto.
Qed.

End Continue.

Lemma job_keeps_ind_ok jn e g :
  (10 <= jn)%nat -> ind_ok g ->
  exists t g', job jn e g = (t, g', Some 0) /\ ind_ok g'.
Proof.
  intros Hjn Hg.
  destruct (job_runs jn e g Hg Hjn) as (t & g' & Hjob & Hind & _).
  exists t, g'. split; [assumption|]. unfold ind_ok in *. now rewrite Hind.
Qed.

(** With [job] for its job, the real-time part of [main] is never left. *)
Lemma rt_section_job jn e n param g :
  (10 <= jn)%nat -> ind_ok g ->
  exists js g',
    rt_section e (job jn e) n param g =
      (enter_calls e param ++ flat_map wait_run js, g', Unfinished) /\
    map snd js = repeat (Some 0) n.
Proof.
  intros Hjn Hg.
  destruct (rt_section_continues (job jn e) ind_ok (fun g0 => job_keeps_ind_ok jn e g0 Hjn)
              e n param g Hg) as (js & g' & H & Hjs & _).
  eauto.
Qed.

Lemma ind_ok_initial : ind_ok initial_globals.
Proof. unfold ind_ok, Int.min_signed, Int.max_signed; simpl; lia. Defined.

(** ** Invariants of runs *)

Section Holds.

Variable Inv : globals -> Prop.
Variable Q : event -> Prop.

Lemma holds_ret {A} (a : A) : holds Inv Q (ret a).
Proof. intros g Hg; split; [assumption | constructor]. Qed.

Lemma holds_return {A} code : holds Inv Q (@return_ A code).
Proof. intros g Hg; split; [assumption | constructor]. Qed.

Lemma holds_unfinished {A} : holds Inv Q (@unfinished A).
Proof. intros g Hg; split; [assumption | constructor]. Qed.

Lemma holds_read {A} (f : globals -> A) : holds Inv Q (read f).
Proof. intros g Hg; split; [assumption | constructor]. Qed.

Lemma holds_call ev : Q ev -> holds Inv Q (call ev).
Proof. intros Hev g Hg; split; [assumption | repeat constructor; assumption]. Qed.

Lemma holds_assign f :
  (forall g, Inv g -> Inv (f g)) -> holds Inv Q (assign f).
Proof. intros Hf g Hg; split; [apply Hf; assumption | constructor]. Qed.

Lemma holds_bind {A B} (m : prog A) (k : A -> prog B) :
  holds Inv Q m -> (forall a, holds Inv Q (k a)) -> holds Inv Q (bind m k).
Proof.
  intros Hm Hk g Hg. unfold bind.
  destruct (Hm g Hg) as [Hg1 Ht].
  destruct (m g) as [[t g1] [a|code|]];
    unfold globals_of, trace_of in *; simpl in *; auto.
  destruct (Hk a g1 Hg1) as [Hg2 Ht'].
  destruct (k a g1) as [[t' g2] o']; simpl in *.
  split; [assumption | apply Forall_app; auto].
Qed.

Lemma holds_if {A} (b : bool) (m1 m2 : prog A) :
  holds Inv Q m1 -> holds Inv Q m2 -> holds Inv Q (if b then m1 else m2).
Proof. destruct b; auto. Qed.

(** A library call that leaves the globals alone. *)
Lemma holds_lib {A} (ev : event) (a : A) :
  Q ev -> holds Inv Q (fun g => ([ev], g, Next a)).
Proof. intros Hev g Hg; split; [assumption | repeat constructor; assumption]. Qed.

Lemma holds_CALL text (exp : prog Z) :
  (forall fmt args, Q (Fprintf fmt args)) ->
  holds Inv Q exp -> holds Inv Q (CALL text exp).
Proof.
  intros Hp Hexp. unfold CALL, fprintf.
  apply holds_bind; [assumption|]. intros r.
  apply holds_if; apply holds_call; apply Hp.
Qed.

End Holds.

Create HintDb holds.

Section HoldsMain.

Variable e : env.
Variable job_fn : globals -> list av_event * globals * option Z.
Variable Inv : globals -> Prop.
Variable Q : event -> Prop.

Hypothesis Q_plain : plain Q.
Hypothesis Inv_set_pFormatCtx : forall v g, Inv g -> Inv (set_pFormatCtx v g).
Hypothesis Inv_set_pCodecCtx : forall v g, Inv g -> Inv (set_pCodecCtx v g).
Hypothesis Inv_set_pCodec : forall v g, Inv g -> Inv (set_pCodec v g).
Hypothesis Inv_set_pFrame : forall v g, Inv g -> Inv (set_pFrame v g).
Hypothesis Inv_set_pFrameRGB : forall v g, Inv g -> Inv (set_pFrameRGB v g).
Hypothesis Inv_set_buffer : forall v g, Inv g -> Inv (set_buffer v g).
Hypothesis Inv_set_vsi : forall v g, Inv g -> Inv (set_vsi v g).
Hypothesis job_holds : forall g, Inv g ->
  Inv (snd (fst (job_fn g))) /\
  forall r, Q (Job (fst (fst (job_fn g))) r).

Lemma holds_call_job : holds Inv Q (call_job job_fn).
Proof.
  intros g Hg. unfold call_job.
  destruct (job_holds g Hg) as [Hg1 Hq].
  destruct (job_fn g) as [[t g1] [v|]]; simpl in *;
    (split; [assumption | repeat constructor; apply Hq]).
Qed.

Lemma holds_job_loop n : holds Inv Q (job_loop job_fn n).
Proof.
  induction n as [|n IH]; simpl; [apply holds_unfinished|].
  apply holds_bind; [apply holds_call; now apply Q_plain|]. intros _.
  apply holds_bind; [apply holds_call_job|]. intros v.
  apply holds_if; [assumption | apply holds_ret].
Qed.

Local Hint Resolve holds_ret holds_return holds_read holds_call holds_assign
  holds_lib holds_job_loop holds_CALL : holds.
Local Hint Extern 1 (Q _) => (apply Q_plain; reflexivity) : holds.
Local Hint Extern 1 (forall fmt args, Q (Fprintf fmt args)) =>
  (intros; apply Q_plain; reflexivity) : holds.
Local Hint Extern 2 (holds _ _ (bind _ _)) =>
  (apply holds_bind; [|intros ?]) : holds.
Local Hint Extern 2 (holds _ _ (if _ then _ else _)) => apply holds_if : holds.
Local Hint Extern 2 (holds _ _ (fprintf _ _)) => unfold fprintf : holds.
Local Hint Extern 1 (forall g, Inv g -> Inv _) => (intros; eauto) : holds.

Lemma holds_rt_section n param : holds Inv Q (rt_section e job_fn n param).
Proof.
  unfold rt_section, init_litmus, set_rt_task_param, task_mode.
  auto 30 with holds.
Qed.

Lemma holds_find_stream ss : forall i, holds Inv Q (find_stream ss i).
Proof. induction ss as [|t ss IH]; intros i; simpl; auto with holds. Qed.

Lemma holds_avformat_open_input path :
  holds Inv Q (avformat_open_input e path).
Proof.
  intros g Hg. unfold avformat_open_input, globals_of, trace_of; simpl.
  split; [destruct (open_input_ret e =? 0); auto|].
  repeat constructor. now apply Q_plain.
Qed.

Lemma holds_decode_setup n param :
  holds Inv Q (decode_setup e job_fn n param).
Proof.
  unfold decode_setup, avcodec_find_decoder, avcodec_open2, av_frame_alloc,
    avpicture_get_size, av_malloc.
  pose proof (holds_rt_section n param).
  auto 40 with holds.
Qed.

Lemma holds_main_with n argc argv :
  holds Inv Q (main_with e job_fn n argc argv).
Proof.
  unfold main_with, avformat_find_stream_info.
  pose proof (holds_decode_setup n task_param).
  pose proof (holds_find_stream (streams e) 0).
  pose proof (holds_avformat_open_input (nth 1 argv EmptyString)).
  auto 40 with holds.
Qed.

End HoldsMain.

(** ** The demuxer moves on *)

Lemma job_body_pos g i : av_pos (snd (fst (job_body g i))) = av_pos g.
Proof.
  unfold job_body.
  destruct (stream_index (packet g) =? vsi g); [|reflexivity].
  destruct (negb _); reflexivity.
Qed.





(** At the end of the stream an invocation of [job] is one failing
    [av_read_frame]. *)
Lemma job_at_eos jn e g :
  fst (frames e (av_pos g)) < 0 ->
  exists g',
    job jn e g = ([AvReadFrame (fst (frames e (av_pos g)))], g', Some 0).
Proof.
  intros Heos. unfold job.
  assert (H : exists g1, job_for jn e g (ind g) =
            ([AvReadFrame (fst (frames e (av_pos g)))], g1, true)).
  { destruct jn; simpl; unfold av_read_frame;
      destruct (frames e (av_pos g)) as [r pkt]; simpl in *;
      destruct (Z.leb_spec 0 r); try lia; simpl; eauto. }
  destruct H as [g1 ->]. eauto.
Qed.


(** ** [main] up to the selection of the stream *)

Lemma find_stream_run ss : forall i g,
  exists g', find_stream ss i g = ([], g', Next tt).
Proof.
  induction ss as [|t ss IH]; intros i g; simpl.
  - exists g; reflexivity.
  - destruct (is_video t); [exists (set_vsi i g); reflexivity | apply IH].
Qed.

(** Whenever the input has been opened, whatever streams it has, [main]
    reports that no stream was found and returns -1: the test at line 131
    assigns -1 to [vsi]. *)
Lemma main_stops_at_stream_selection jn n e argc argv :
  2 <= argc -> open_input_ret e = 0 -> 0 <= find_stream_info_ret e ->
  exists g,
    main jn n e argc argv =
      ([AvRegisterAll; AvformatOpenInput (nth 1 argv EmptyString) 0;
        AvformatFindStreamInfo (find_stream_info_ret e);
        Fprintf "No stream found\n" []], g, Return (-1)).
Proof.
  intros Hargc Hopen Hinfo. unfold main, main_with.
  rewrite (proj2 (Z.ltb_ge argc 2)) by lia.
  cbv [bind call avformat_open_input avformat_find_stream_info assign read
       fprintf return_].
  rewrite Hopen. change (0 =? 0) with true. cbn [negb].
  rewrite (proj2 (Z.ltb_ge (find_stream_info_ret e) 0)) by lia.
  destruct (find_stream_run (streams e) 0
              (set_vsi (-1) (set_pFormatCtx (format_ctx e) initial_globals)))
    as [g' ->].
  eexists. reflexivity.
Qed.

(** ** [ind] and [img_convert_ctx] along a run *)

Lemma job_for_ctx n e : forall g i,
  Forall (scaler_ctx_is (img_convert_ctx g)) (fst (fst (job_for n e g i))).
Proof.
  induction n as [|n IH]; intros g i; simpl;
    pose proof (av_read_frame_frame e g) as (_ & Hctx & _);
    destruct (av_read_frame e g) as [r g1]; simpl in Hctx;
    destruct ((0 <=? r) && (i <? Int.add (ind g1) 10)); simpl;
    try (repeat constructor).
  pose proof (job_body_frame g1 i) as (_ & Hb & _).
  assert (Htb : Forall (scaler_ctx_is (img_convert_ctx g))
                  (fst (fst (job_body g1 i)))).
  { unfold job_body. destruct (stream_index (packet g1) =? vsi g1);
      [destruct (negb _)|]; repeat constructor. simpl. exact Hctx. }
  destruct (job_body g1 i) as [[tb g2] i2]; simpl in Hb, Htb.
  specialize (IH g2 (Int.add i2 1)).
  destruct (job_for n e g2 (Int.add i2 1)) as [[tl g3] fin]; simpl in *.
  constructor; [exact I|].
  apply Forall_app; split; [assumption|].
  rewrite Hb, Hctx in IH. exact IH.
Qed.

Lemma job_ctx jn e g :
  Forall (scaler_ctx_is (img_convert_ctx g)) (fst (fst (job jn e g))).
Proof.
  unfold job. pose proof (job_for_ctx jn e g (ind g)) as H.
  destruct (job_for jn e g (ind g)) as [[t g1] fin]; simpl in *.
  destruct fin; exact H.
Qed.

Lemma job_index jn e g :
  index (snd (fst (job jn e g))) =
    match snd (job jn e g) with
    | Some _ => Int.add (index g) 10
    | None => index g
    end.
Proof.
  unfold job. pose proof (job_for_frame jn e g (ind g)) as (_ & _ & _ & H).
  destruct (job_for jn e g (ind g)) as [[t g1] fin]; simpl in *.
  destruct fin; simpl; congruence.
Qed.

Section Untouched.

Variables (jn : nat) (e : env) (i0 : Z) (c : pointer).

Lemma jobs_scaled_plain : plain (jobs_scaled c).
Proof. intros ev; destruct ev; simpl; trivial; discriminate. Qed.

Lemma job_untouched g :
  untouched i0 c g ->
  untouched i0 c (snd (fst (job jn e g))) /\
  forall r, jobs_scaled c (Job (fst (fst (job jn e g))) r).
Proof.
  intros [Hi Hc].
  pose proof (job_frame jn e g) as (H1 & H2 & _).
  pose proof (job_scaled jn e g) as H3.
  pose proof (job_ctx jn e g) as H4.
  rewrite Hc in H3, H4. unfold untouched. simpl. intuition congruence.
Qed.

Lemma decode_setup_untouched n param :
  holds (untouched i0 c) (jobs_scaled c) (decode_setup e (job jn e) n param).
Proof.
  apply holds_decode_setup;
    auto using jobs_scaled_plain, job_untouched.
Qed.

Lemma main_untouched n argc argv :
  holds (untouched i0 c) (jobs_scaled c) (main_with e (job jn e) n argc argv).
Proof.
  apply holds_main_with;
    auto using jobs_scaled_plain, job_untouched.
Qed.

End Untouched.

(** * The claims *)

(** C1, as the code has it.  For every producer, [job] returns 0, the
    signal to continue, also when [av_read_frame] fails at once because the
    stream has ended (the invocation then makes that one call).  The runtime
    therefore stays in its loop: [n] iterations make [n] calls of
    [sleep_next_period] and [n] jobs that all return 0, and
    [task_mode(BACKGROUND_TASK)] is not called. *)
Theorem job_never_asks_to_exit (jn : nat) (e : env) (g : globals) :
  ind_ok g -> (10 <= jn)%nat ->
  (exists t g', job jn e g = (t, g', Some 0)) /\
  (fst (frames e (av_pos g)) < 0 ->
   exists g',
     job jn e g = ([AvReadFrame (fst (frames e (av_pos g)))], g', Some 0)) /\
  forall n param,
    let r := rt_section e (job jn e) n param g in
    outcome_of r = Unfinished /\
    List.length (filter is_sleep (trace_of r)) = n /\
    filter is_exit_rt (trace_of r) = [] /\
    job_returns (trace_of r) = repeat (Some 0) n.
Proof.
  intros Hg Hjn. split; [|split].
  - destruct (job_runs jn e g Hg Hjn) as (t & g' & H & _). eauto.
  - apply job_at_eos.
  - intros n param r; subst r.
    destruct (rt_section_job jn e n param g Hjn Hg) as (js & g' & -> & Hjs).
    unfold trace_of, outcome_of; cbn [fst snd].
    split; [reflexivity|]. split; [|split].
    + rewrite filter_app, sleeps_enter; cbn [app]. rewrite sleeps_periods.
      rewrite <- (length_map snd), Hjs. apply repeat_length.
    + rewrite filter_app, exit_rt_enter, exit_rt_periods. reflexivity.
    + rewrite job_returns_app, job_returns_enter, job_returns_periods.
      exact Hjs.
Qed.

(** The end of the stream, from the initial globals. *)
Lemma job_never_asks_to_exit_witness :
  ind_ok initial_globals /\ (10 <= 10)%nat /\
  ((exists t g', job 10 eos_world initial_globals = (t, g', Some 0)) /\
   (fst (frames eos_world (av_pos initial_globals)) < 0 ->
    exists g',
      job 10 eos_world initial_globals =
        ([AvReadFrame (fst (frames eos_world (av_pos initial_globals)))], g',
         Some 0)) /\
   forall n param,
     let r := rt_section eos_world (job 10 eos_world) n param initial_globals in
     outcome_of r = Unfinished /\
     List.length (filter is_sleep (trace_of r)) = n /\
     filter is_exit_rt (trace_of r) = [] /\
     job_returns (trace_of r) = repeat (Some 0) n).
Proof.
  split; [exact ind_ok_initial|].
  split; [lia|].
  apply (job_never_asks_to_exit 10 eos_world initial_globals);
    [exact ind_ok_initial | lia].
Defined.

(** C1 as stated fails.  The producer is at the end of its stream: the job
    returns 0 and not 1, and the runtime waits for the next period again. *)
Lemma end_of_stream_job_continues :
  fst (frames eos_world 0) < 0 /\
  snd (job 10 eos_world initial_globals) <> Some 1 /\
  skipn 6 (trace_of (rt_section eos_world (job 10 eos_world) 2 task_param
                       initial_globals)) =
    [SleepNextPeriod; Job [AvReadFrame AVERROR_EOF] (Some 0);
     SleepNextPeriod; Job [AvReadFrame AVERROR_EOF] (Some 0)].
Proof.
  split; [reflexivity|]. split; [discriminate | reflexivity].
Qed.


(** A job that returns 1 at its first invocation: the loop is left, the task
    goes back to background mode and [main] returns 0. *)
Example stop_job_run (e : env) (param : rt_task) (g : globals) :
  rt_section e stop_job 1 param g =
    (enter_calls e param ++ wait_run ([], Some 1) ++ exit_calls e g,
     set_pFormatCtx NULL g, Return 0).
Proof. rewrite rt_section_run. reflexivity. Qed.

(** C3, as the code has it.  The calls of the real-time part of [main] are:
    [init_litmus], [set_rt_task_param] and [task_mode(LITMUS_RT_TASK)], each
    followed by the line that reports its success or its failure; then
    periods, each one [sleep_next_period] followed by one job; then either
    nothing (the loop is running) or the exit calls, which start with
    [task_mode(BACKGROUND_TASK)] and hold neither a wait nor a job. *)
Theorem waits_and_jobs_alternate (e : env)
    (job_fn : globals -> list av_event * globals * option Z)
    (n : nat) (param : rt_task) (g : globals) :
  exists js tail,
    trace_of (rt_section e job_fn n param g) =
      enter_calls e param ++ flat_map wait_run js ++ tail /\
    (tail = [] \/ exists g1, tail = exit_calls e g1) /\
    Forall outside_loop tail.
Proof.
  rewrite rt_section_run.
  destruct (job_loop_periods job_fn n g) as [js Hjs].
  destruct (job_loop job_fn n g) as [[tl g1] o].
  unfold trace_of in *; simpl in Hjs; subst tl.
  destruct o as [[]|code|]; cbn [fst].
  - exists js, (exit_calls e g1). split; [reflexivity|].
    split; [eauto | apply outside_loop_exit].
  - exists js, []. rewrite app_nil_r. auto.
  - exists js, []. rewrite app_nil_r. auto.
Qed.

(** C3 as stated fails.  [task_mode(LITMUS_RT_TASK)] fails, which [CALL]
    reports, and [sleep_next_period] is called all the same. *)
Lemma wait_without_real_time_mode :
  trace_of (rt_section no_rt_world (job 10 no_rt_world) 1 task_param
              initial_globals) =
    enter_calls no_rt_world task_param ++
    [SleepNextPeriod; Job [AvReadFrame AVERROR_EOF] (Some 0)] /\
  In (TaskMode LITMUS_RT_TASK (-1)) (enter_calls no_rt_world task_param) /\
  waits_guarded false
    (trace_of (rt_section no_rt_world (job 10 no_rt_world) 1 task_param
                 initial_globals)) = false.
Proof.
  split; [reflexivity|]. split; [|reflexivity].
  unfold enter_calls; simpl; auto 10.
Qed.

(** C4 fails on the code.  The producer has twenty-five packets of another
    stream than the video stream: one invocation of [job] calls
    [av_read_frame] eleven times.  The loop test reads a packet before it
    compares the counter with the bound, so that the eleventh packet is read,
    and dropped without [av_free_packet]. *)
Theorem job_reads_eleven_packets :
  snd (job 32 audio_world initial_globals) = Some 0 /\
  reads (fst (fst (job 32 audio_world initial_globals))) = 11%nat /\
  av_pos (snd (fst (job 32 audio_world initial_globals))) = 11%nat /\
  List.length (filter (fun ev => match ev with AvFreePacket => true | _ => false end)
                 (fst (fst (job 32 audio_world initial_globals)))) = 10%nat.
Proof. repeat split. Qed.







(** C7 fails on the code.  The input has a video stream, stream 0, and every
    set-up call succeeds; [main] nevertheless reports that no stream was
    found and returns -1, before any codec is looked up: line 131 assigns -1
    to [vsi] where it means to compare. *)
Theorem video_stream_not_found (jn n : nat) :
  streams video_world = [AVMEDIA_TYPE_VIDEO] /\
  main jn n video_world 2 argv2 =
    ([AvRegisterAll; AvformatOpenInput "video.mp4" 0; AvformatFindStreamInfo 0;
      Fprintf "No stream found\n" []],
     set_vsi (-1) (set_pFormatCtx 1 initial_globals), Return (-1)).
Proof. split; reflexivity. Qed.

(** C8, as the code has it.  Without the input argument, [main] prints the
    usage message and returns 0; it makes no other call, so that neither the
    connection nor the admission is attempted. *)
Theorem usage_returns_zero (jn n : nat) (e : env) (argc : Z)
    (argv : list string) :
  argc < 2 ->
  main jn n e argc argv =
    ([Fprintf "USAGE: base_task /path/to/video/file" []], initial_globals,
     Return 0).
Proof.
  intros Hargc. unfold main, main_with.
  rewrite (proj2 (Z.ltb_lt argc 2)) by lia. reflexivity.
Qed.

(** The program name alone. *)
Lemma usage_returns_zero_witness :
  1 < 2 /\
  main 10 1 video_world 1 ["base_task"%string] =
    ([Fprintf "USAGE: base_task /path/to/video/file" []], initial_globals,
     Return 0).
Proof.
  split; [lia|].
  apply (usage_returns_zero 10 1 video_world 1 ["base_task"%string]); lia.
Defined.

(** C8 as stated fails.  With the program name for only argument, the exit
    status is not a non-zero one. *)
Lemma usage_status_is_zero :
  ~ (exists code,
       outcome_of (main 10 1 video_world 1 ["base_task"%string]) = Return code /\
       code <> 0).
Proof.
  intros (code & Hout & Hcode). apply Hcode.
  change (Return (A := unit) 0 = Return code) in Hout. congruence.
Qed.

(** C9.  [ind] is 0 when [main] starts, and no code changes it: it has the
    same value after an invocation of [job] as before, after any part of a
    run of [main] from the codec set-up on, and after any run of [main].
    What [job] increments when it returns is [index]. *)
Theorem ind_never_modified (jn n : nat) (e : env) (g : globals)
    (param : rt_task) (argc : Z) (argv : list string) :
  ind initial_globals = 0 /\
  ind (snd (fst (job jn e g))) = ind g /\
  index (snd (fst (job jn e g))) =
    match snd (job jn e g) with
    | Some _ => Int.add (index g) 10
    | None => index g
    end /\
  ind (globals_of (decode_setup e (job jn e) n param g)) = ind g /\
  ind (globals_of (main jn n e argc argv)) = 0.
Proof.
  split; [reflexivity|].
  split; [apply job_frame|].
  split; [apply job_index|].
  split.
  - apply (decode_setup_untouched jn e (ind g) (img_convert_ctx g) n param g).
    split; reflexivity.
  - apply (main_untouched jn e 0 NULL n argc argv initial_globals).
    split; reflexivity.
Qed.

(** C10.  [img_convert_ctx] is [NULL] when [main] starts and no code assigns
    it.  In an invocation of [job], a decode that completes a frame is
    followed at once by [sws_scale], which is called nowhere else, and every
    call of [sws_scale] has for its context the value of [img_convert_ctx];
    so that in every run of [main] the context of every [sws_scale] is
    [NULL]. *)
Theorem scaler_context_is_null (jn n : nat) (e : env) (g : globals)
    (param : rt_task) (argc : Z) (argv : list string) :
  img_convert_ctx initial_globals = NULL /\
  scaled_when_finished (img_convert_ctx g) (fst (fst (job jn e g))) = true /\
  Forall (scaler_ctx_is (img_convert_ctx g)) (fst (fst (job jn e g))) /\
  img_convert_ctx (snd (fst (job jn e g))) = img_convert_ctx g /\
  Forall (jobs_scaled (img_convert_ctx g))
    (trace_of (decode_setup e (job jn e) n param g)) /\
  img_convert_ctx (globals_of (decode_setup e (job jn e) n param g)) =
    img_convert_ctx g /\
  Forall (jobs_scaled NULL) (trace_of (main jn n e argc argv)) /\
  img_convert_ctx (globals_of (main jn n e argc argv)) = NULL.
Proof.
  split; [reflexivity|].
  split; [apply job_scaled|].
  split; [apply job_ctx|].
  split; [apply job_frame|].
  destruct (decode_setup_untouched jn e (ind g) (img_convert_ctx g) n param g)
    as [[_ Hc] Ht]; [split; reflexivity|].
  destruct (main_untouched jn e 0 NULL n argc argv initial_globals)
    as [[_ Hc'] Ht']; [split; reflexivity|].
  auto.
Qed.


(** * Further properties of the code *)

(** ** One invocation of [job] *)

Lemma frees_app t1 t2 : frees (t1 ++ t2) = (frees t1 + frees t2)%nat.
Proof. unfold frees; rewrite filter_app, length_app; reflexivity. Qed.

Lemma scales_app t1 t2 : scales (t1 ++ t2) = (scales t1 + scales t2)%nat.
Proof. unfold scales; rewrite filter_app, length_app; reflexivity. Qed.

(** The body frees the packet it was given, and scales at most once, exactly
    when the counter goes up. *)
Lemma job_body_counts g i :
  let '(tb, g2, i2) := job_body g i in
  frees tb = 1%nat /\ reads tb = 0%nat /\ av_pos g2 = av_pos g /\
  ((scales tb = 0%nat /\ i2 = i) \/ (scales tb = 1%nat /\ i2 = Int.add i 1)).
Proof.
  unfold job_body.
  destruct (stream_index (packet g) =? vsi g); [destruct (negb _)|];
    repeat split; auto.
Qed.

Lemma job_for_counts n e : forall g i,
  let '(t, g', _) := job_for n e g i in
  reads t = (frees t + 1)%nat /\ av_pos g' = (av_pos g + reads t)%nat /\
  (scales t <= frees t)%nat.
Proof.
  induction n as [|n IH]; intros g i; simpl; unfold av_read_frame;
    destruct (frames e (av_pos g)) as [r pkt];
    match goal with |- context [if ?c then _ else _] => destruct c end;
    try (unfold reads, frees, scales; simpl; lia).
  match goal with |- context [job_body ?g1 i] =>
    pose proof (job_body_counts g1 i) as Hb;
    destruct (job_body g1 i) as [[tb g2] i2] end.
  destruct Hb as (Hf & Hr & Hp & Hs). simpl in Hp.
  specialize (IH g2 (Int.add i2 1)).
  destruct (job_for n e g2 (Int.add i2 1)) as [[tl g3] fin].
  destruct IH as (IH1 & IH2 & IH3).
  change (AvReadFrame r :: tb ++ tl) with ([AvReadFrame r] ++ tb ++ tl).
  rewrite !reads_app, !frees_app, !scales_app, Hf, Hr.
  change (reads [AvReadFrame r]) with 1%nat.
  change (frees [AvReadFrame r]) with 0%nat.
  change (scales [AvReadFrame r]) with 0%nat.
  destruct Hs as [[Hs _]|[Hs _]]; rewrite Hs; lia.
Qed.

Lemma job_trace jn e g :
  fst (fst (job jn e g)) = fst (fst (job_for jn e g (ind g))).
Proof.
  unfold job. destruct (job_for jn e g (ind g)) as [[t g1] fin].
  destruct fin; reflexivity.
Qed.

Lemma job_av_pos jn e g :
  av_pos (snd (fst (job jn e g))) =
  av_pos (snd (fst (job_for jn e g (ind g)))).
Proof.
  unfold job. destruct (job_for jn e g (ind g)) as [[t g1] fin].
  destruct fin; reflexivity.
Qed.

(** X1.  An invocation of [job] frees one packet fewer than it reads: the
    last packet read, when the read succeeded, is never handed to
    [av_free_packet].  The demuxer has moved by the number of reads, and no
    more frames are scaled than packets are freed. *)
Theorem job_reads_one_more_than_frees (jn : nat) (e : env) (g : globals) :
  reads (fst (fst (job jn e g))) = (frees (fst (fst (job jn e g))) + 1)%nat /\
  av_pos (snd (fst (job jn e g))) =
    (av_pos g + reads (fst (fst (job jn e g))))%nat /\
  (scales (fst (fst (job jn e g))) <= frees (fst (fst (job jn e g))))%nat.
Proof.
  rewrite job_trace, job_av_pos.
  pose proof (job_for_counts jn e g (ind g)) as H.
  destruct (job_for jn e g (ind g)) as [[t g1] fin]. exact H.
Qed.

(** The packets freed and the frames scaled, counted together, fit in what
    is left of the batch. *)
Lemma job_for_batch n e : forall g i,
  ind_ok g -> Int.min_signed <= i ->
  let t := fst (fst (job_for n e g i)) in
  Z.of_nat (frees t + scales t) <=
    (if i <? ind g + 10 then ind g + 10 - i + 1 else 0) /\
  Z.of_nat (frees t) <= (if i <? ind g + 10 then ind g + 10 - i else 0).
Proof.
  unfold ind_ok, Int.min_signed, Int.max_signed.
  induction n as [|n IH]; intros g i Hg Hi; simpl;
    pose proof (av_read_frame_frame e g) as (Hind & _);
    destruct (av_read_frame e g) as [r g1]; simpl in Hind;
    (rewrite add_small, Hind
      by (rewrite Hind; unfold Int.in_range, Int.min_signed, Int.max_signed; lia));
    destruct (0 <=? r); simpl;
    destruct (Z.ltb_spec i (ind g + 10)) as [Hlt|Hge];
    try (unfold frees, scales; simpl; lia).
  pose proof (job_body_frame g1 i) as (Hb & _).
  pose proof (job_body_counts g1 i) as Hc.
  destruct (job_body g1 i) as [[tb g2] i2]; simpl in Hb.
  destruct Hc as (Hf & _ & _ & Hs).
  assert (Hg2 : ind g2 = ind g) by congruence.
  assert (Hsmall : Int.add i 1 = i + 1).
  { apply add_small. unfold Int.in_range, Int.min_signed, Int.max_signed; lia. }
  assert (Hi2 : (scales tb = 0%nat /\ i2 = i) \/ (scales tb = 1%nat /\ i2 = i + 1)).
  { destruct Hs as [[? ?]|[? ?]]; [left | right]; split; congruence. }
  assert (Hnext : Int.add i2 1 = i2 + 1).
  { apply add_small. unfold Int.in_range, Int.min_signed, Int.max_signed; lia. }
  rewrite Hnext.
  specialize (IH g2 (i2 + 1)). rewrite Hg2 in IH.
  destruct (job_for n e g2 (i2 + 1)) as [[tl g3] fin]; simpl in *.
  assert (IH' : Z.of_nat (frees tl + scales tl) <=
                (if i2 + 1 <? ind g + 10 then ind g + 10 - (i2 + 1) + 1 else 0) /\
                Z.of_nat (frees tl) <=
                (if i2 + 1 <? ind g + 10 then ind g + 10 - (i2 + 1) else 0))
    by (apply IH; lia).
  change (AvReadFrame r :: tb ++ tl) with ([AvReadFrame r] ++ tb ++ tl).
  rewrite !frees_app, !scales_app, Hf.
  change (frees [AvReadFrame r]) with 0%nat.
  change (scales [AvReadFrame r]) with 0%nat.
  destruct (Z.ltb_spec (i2 + 1) (ind g + 10));
    destruct Hi2 as [[Hs0 ->]|[Hs0 ->]]; rewrite Hs0; lia.
Qed.

(** X2.  Where the counter cannot overflow, an invocation of [job], followed
    for any number of iterations, reads at most eleven packets, frees at
    most ten and scales at most five frames: a completed frame counts twice
    in the batch of ten. *)
Theorem job_batch_bounds (jn : nat) (e : env) (g : globals) :
  ind_ok g ->
  (1 <= reads (fst (fst (job jn e g))) <= 11)%nat /\
  (frees (fst (fst (job jn e g))) <= 10)%nat /\
  (scales (fst (fst (job jn e g))) <= 5)%nat.
Proof.
  intros Hg. rewrite job_trace.
  pose proof (job_for_batch jn e g (ind g) Hg) as Hb.
  pose proof (job_for_counts jn e g (ind g)) as Hc.
  destruct (job_for jn e g (ind g)) as [[t g1] fin].
  destruct Hc as (Hr & _ & Hs). cbn [fst] in *.
  assert (H : Z.of_nat (frees t + scales t) <= 11 /\ Z.of_nat (frees t) <= 10).
  { unfold ind_ok in Hg.
    specialize (Hb (proj1 Hg)).
    destruct (Z.ltb_spec (ind g) (ind g + 10)); lia. }
  lia.
Qed.

(** The initial globals. *)
Lemma job_batch_bounds_witness :
  ind_ok initial_globals /\
  ((1 <= reads (fst (fst (job 10 video_world initial_globals))) <= 11)%nat /\
   (frees (fst (fst (job 10 video_world initial_globals))) <= 10)%nat /\
   (scales (fst (fst (job 10 video_world initial_globals))) <= 5)%nat).
Proof.
  split; [exact ind_ok_initial|].
  apply (job_batch_bounds 10 video_world initial_globals). exact ind_ok_initial.
Defined.

Lemma job_for_stops_at_failure n e k : forall g i,
  (av_pos g <= k)%nat -> fst (frames e k) < 0 ->
  (av_pos (snd (fst (job_for n e g i))) <= S k)%nat.
Proof.
  induction n as [|n IH]; intros g i Hk Hfail; simpl; unfold av_read_frame;
    destruct (frames e (av_pos g)) as [r pkt] eqn:Hfr;
    assert (Hcase : r < 0 \/ (av_pos g < k)%nat)
      by (destruct (Nat.eq_dec (av_pos g) k) as [Heq|Hne];
          [left; rewrite Heq in Hfr; rewrite Hfr in Hfail; exact Hfail
          | right; lia]);
    destruct (Z.leb_spec 0 r) as [Hr|Hr]; simpl;
    try destruct (i <? _); simpl; try lia.
  match goal with |- context [job_body ?g1 i] =>
    pose proof (job_body_pos g1 i) as Hb;
    destruct (job_body g1 i) as [[tb g2] i2] end.
  simpl in Hb. specialize (IH g2 (Int.add i2 1)).
  destruct (job_for n e g2 (Int.add i2 1)) as [[tl g3] fin]; simpl in *.
  apply IH; [lia | assumption].
Qed.

(** X3.  An invocation of [job] never reads past an answer of
    [av_read_frame] that reports a failure: the failing call is the last
    call of the invocation. *)
Theorem job_stops_at_failure (jn : nat) (e : env) (g : globals) (k : nat) :
  (av_pos g <= k)%nat -> fst (frames e k) < 0 ->
  (av_pos (snd (fst (job jn e g))) <= S k)%nat.
Proof.
  intros Hk Hfail. rewrite job_av_pos.
  apply job_for_stops_at_failure; assumption.
Qed.

(** Three audio packets and then the end of the stream, from the globals of
    a completed set-up: the fourth read fails. *)
Lemma job_stops_at_failure_witness :
  (av_pos (ready_globals short_world) <= 3)%nat /\
  fst (frames short_world 3) < 0 /\
  (av_pos (snd (fst (job 10 short_world (ready_globals short_world)))) <= 4)%nat.
Proof.
  split; [simpl; lia|]. split; [reflexivity|].
  apply (job_stops_at_failure 10 short_world (ready_globals short_world) 3);
    [simpl; lia | reflexivity].
Defined.

(** There the job reads the three packets, meets the failure at its fourth
    read and stops, seven places of its batch being left. *)
Example job_stops_at_failure_run :
  fst (fst (job 10 short_world (ready_globals short_world))) =
    [AvReadFrame 0; AvFreePacket; AvReadFrame 0; AvFreePacket;
     AvReadFrame 0; AvFreePacket; AvReadFrame AVERROR_EOF] /\
  av_pos (snd (fst (job 10 short_world (ready_globals short_world)))) = 4%nat.
Proof. split; reflexivity. Qed.

Lemma job_for_skips n e : forall g i,
  (forall k, 0 <= fst (frames e k) ->
             stream_index (snd (frames e k)) <> vsi g) ->
  let '(t, g', _) := job_for n e g i in
  Forall (fun ev => is_decode ev = false /\ is_scale ev = false) t /\
  frameFinished g' = frameFinished g /\ vsi g' = vsi g.
Proof.
  induction n as [|n IH]; intros g i Hne; simpl; unfold av_read_frame;
    pose proof (Hne (av_pos g)) as Hk;
    destruct (frames e (av_pos g)) as [r pkt]; simpl in Hk;
    destruct (Z.leb_spec 0 r) as [Hr|Hr]; simpl;
    try destruct (i <? _); simpl;
    try (split; [repeat constructor | split; reflexivity]).
  unfold job_body; simpl.
  destruct (Z.eqb_spec (stream_index pkt) (vsi g)) as [Heq|_];
    [now contradiction (Hk Hr)|].
  match goal with |- context [job_for n e ?g1 ?i1] =>
    specialize (IH g1 i1 Hne); destruct (job_for n e g1 i1) as [[tl g3] fin] end.
  destruct IH as (IH1 & IH2 & IH3). simpl in *.
  split; [repeat constructor; assumption | split; assumption].
Qed.

(** X4.  When no packet that the producer delivers belongs to stream [vsi],
    an invocation of [job] only reads and frees packets: it calls neither
    the decoder nor the scaler, and leaves [frameFinished] as it was. *)
Theorem job_skips_other_streams (jn : nat) (e : env) (g : globals) :
  (forall k, 0 <= fst (frames e k) ->
             stream_index (snd (frames e k)) <> vsi g) ->
  Forall (fun ev => is_decode ev = false /\ is_scale ev = false)
    (fst (fst (job jn e g))) /\
  frameFinished (snd (fst (job jn e g))) = frameFinished g.
Proof.
  intros Hne. unfold job.
  pose proof (job_for_skips jn e g (ind g) Hne) as H.
  destruct (job_for jn e g (ind g)) as [[t g1] fin].
  destruct H as (H1 & H2 & _). destruct fin; simpl; auto.
Qed.

Lemma audio_packets_other_stream k :
  0 <= fst (frames audio_world k) ->
  stream_index (snd (frames audio_world k)) <> vsi initial_globals.
Proof.
  simpl. unfold packets. destruct (k <? 25)%nat; simpl.
  - intros _; discriminate.
  - unfold AVERROR_EOF; lia.
Defined.

(** Audio packets only, the video stream being stream 0. *)
Lemma job_skips_other_streams_witness :
  (forall k, 0 <= fst (frames audio_world k) ->
             stream_index (snd (frames audio_world k)) <> vsi initial_globals) /\
  Forall (fun ev => is_decode ev = false /\ is_scale ev = false)
    (fst (fst (job 10 audio_world initial_globals))) /\
  frameFinished (snd (fst (job 10 audio_world initial_globals))) =
    frameFinished initial_globals.
Proof.
  split; [exact audio_packets_other_stream|].
  apply (job_skips_other_streams 10 audio_world initial_globals).
  exact audio_packets_other_stream.
Defined.

Lemma job_for_pointers n e : forall g i,
  same_pointers g (snd (fst (job_for n e g i))).
Proof.
  induction n as [|n IH]; intros g i; simpl; unfold av_read_frame;
    destruct (frames e (av_pos g)) as [r pkt];
    match goal with |- context [if ?c then _ else _] => destruct c end;
    simpl; try solve [repeat split].
  unfold job_body; simpl.
  destruct (stream_index pkt =? vsi g); [destruct (negb _)|];
    match goal with |- context [job_for n e ?g1 ?i1] =>
      specialize (IH g1 i1); destruct (job_for n e g1 i1) as [[tl g3] fin] end;
    unfold same_pointers in *; simpl in *; tauto.
Qed.

(** X5.  An invocation of [job] assigns none of the pointers that the set-up
    stored ([pFormatCtx], [pCodecCtx], [pCodec], [pFrame], [pFrameRGB],
    [buffer]) and does not change [vsi]. *)
Theorem job_keeps_pointers (jn : nat) (e : env) (g : globals) :
  same_pointers g (snd (fst (job jn e g))).
Proof.
  unfold job. pose proof (job_for_pointers jn e g (ind g)) as H.
  destruct (job_for jn e g (ind g)) as [[t g1] fin].
  destruct fin; exact H.
Qed.

(** ** The selection of the stream *)

Lemma find_stream_from pre t post g : forall i,
  Forall (fun s => is_video s = false) pre -> is_video t = true ->
  0 <= i -> i + Z.of_nat (List.length pre) <= Int.max_signed ->
  find_stream (pre ++ t :: post) i g =
    ([], set_vsi (i + Z.of_nat (List.length pre)) g, Next tt).
Proof.
  induction pre as [|s pre IH]; intros i Hpre Ht Hi Hmax; simpl.
  - rewrite Ht, Z.add_0_r. reflexivity.
  - inversion Hpre as [|? ? Hs Hpre']; subst. rewrite Hs.
    cbn [List.length] in Hmax. rewrite Nat2Z.inj_succ in Hmax.
    assert (Hadd : Int.add i 1 = i + 1).
    { apply add_small.
      unfold Int.in_range, Int.min_signed, Int.max_signed in *. lia. }
    rewrite Hadd, IH by (assumption || lia).
    replace (i + 1 + Z.of_nat (List.length pre))
      with (i + Z.pos (Pos.of_succ_nat (List.length pre))) by lia.
    reflexivity.
Qed.

(** X6.  The search of lines 125-130 stores in [vsi] the index of the first
    video stream of the input, the streams before it being of other kinds
    (as long as that index is an [int]); it makes no call and changes
    nothing else. *)
Theorem find_stream_first_video (pre : list AVMediaType) (t : AVMediaType)
    (post : list AVMediaType) (g : globals) :
  Forall (fun s => is_video s = false) pre -> is_video t = true ->
  Z.of_nat (List.length pre) <= Int.max_signed ->
  find_stream (pre ++ t :: post) 0 g =
    ([], set_vsi (Z.of_nat (List.length pre)) g, Next tt).
Proof.
  intros Hpre Ht Hmax.
  rewrite (find_stream_from pre t post g 0); auto; lia.
Qed.

(** An audio stream, then the video stream, then subtitles. *)
Lemma find_stream_first_video_witness :
  Forall (fun s => is_video s = false) [AVMEDIA_TYPE_AUDIO] /\
  is_video AVMEDIA_TYPE_VIDEO = true /\
  Z.of_nat (List.length [AVMEDIA_TYPE_AUDIO]) <= Int.max_signed /\
  find_stream ([AVMEDIA_TYPE_AUDIO] ++ AVMEDIA_TYPE_VIDEO ::
               [AVMEDIA_TYPE_SUBTITLE]) 0 (set_vsi (-1) initial_globals) =
    ([], set_vsi (Z.of_nat (List.length [AVMEDIA_TYPE_AUDIO]))
           (set_vsi (-1) initial_globals), Next tt).
Proof.
  assert (H1 : Forall (fun s => is_video s = false) [AVMEDIA_TYPE_AUDIO])
    by (repeat constructor).
  assert (H3 : Z.of_nat (List.length [AVMEDIA_TYPE_AUDIO]) <= Int.max_signed)
    by (unfold Int.max_signed; simpl; lia).
  split; [exact H1|]. split; [reflexivity|]. split; [exact H3|].
  apply (find_stream_first_video [AVMEDIA_TYPE_AUDIO] AVMEDIA_TYPE_VIDEO
           [AVMEDIA_TYPE_SUBTITLE] (set_vsi (-1) initial_globals));
    [exact H1 | reflexivity | exact H3].
Defined.

(** X7.  When the input has no video stream, the search leaves the globals
    as they were: [vsi] keeps the -1 that line 124 stored in it. *)
Theorem find_stream_no_video (ss : list AVMediaType) (i : Z) (g : globals) :
  Forall (fun s => is_video s = false) ss ->
  find_stream ss i g = ([], g, Next tt).
Proof.
  intros Hss. revert i.
  induction Hss as [|s ss Hs _ IH]; intros i; simpl; [reflexivity|].
  rewrite Hs. apply IH.
Qed.

(** Audio and subtitles only. *)
Lemma find_stream_no_video_witness :
  Forall (fun s => is_video s = false)
    [AVMEDIA_TYPE_AUDIO; AVMEDIA_TYPE_SUBTITLE] /\
  find_stream [AVMEDIA_TYPE_AUDIO; AVMEDIA_TYPE_SUBTITLE] 0
    (set_vsi (-1) initial_globals) =
    ([], set_vsi (-1) initial_globals, Next tt).
Proof.
  assert (H : Forall (fun s => is_video s = false)
                [AVMEDIA_TYPE_AUDIO; AVMEDIA_TYPE_SUBTITLE])
    by (repeat constructor).
  split; [exact H|].
  apply (find_stream_no_video [AVMEDIA_TYPE_AUDIO; AVMEDIA_TYPE_SUBTITLE] 0
           (set_vsi (-1) initial_globals)).
  exact H.
Defined.

(** ** [main] as a whole *)

(** The four ways in which [main] runs. *)
Lemma main_run jn n e argc argv :
  main jn n e argc argv =
    if argc <? 2 then
      ([Fprintf "USAGE: base_task /path/to/video/file" []], initial_globals,
       Return 0)
    else if negb (open_input_ret e =? 0) then
      ([AvRegisterAll;
        AvformatOpenInput (nth 1 argv EmptyString) (open_input_ret e);
        Fprintf "Unable to open video file\n" []], initial_globals,
       Return (-1))
    else if find_stream_info_ret e <? 0 then
      ([AvRegisterAll;
        AvformatOpenInput (nth 1 argv EmptyString) (open_input_ret e);
        AvformatFindStreamInfo (find_stream_info_ret e);
        Fprintf "Unable to open video stream\n" []],
       set_pFormatCtx (format_ctx e) initial_globals, Return (-1))
    else
      ([AvRegisterAll;
        AvformatOpenInput (nth 1 argv EmptyString) (open_input_ret e);
        AvformatFindStreamInfo (find_stream_info_ret e);
        Fprintf "No stream found\n" []],
       set_vsi (-1)
         (globals_of
            (find_stream (streams e) 0
               (set_vsi (-1) (set_pFormatCtx (format_ctx e) initial_globals)))),
       Return (-1)).
Proof.
  unfold main, main_with.
  destruct (argc <? 2); [reflexivity|].
  cbv [bind call avformat_open_input avformat_find_stream_info assign read
       fprintf return_].
  destruct (open_input_ret e =? 0); cbn [negb]; [|reflexivity].
  destruct (find_stream_info_ret e <? 0); [reflexivity|].
  destruct (find_stream_run (streams e) 0
              (set_vsi (-1) (set_pFormatCtx (format_ctx e) initial_globals)))
    as [g' Hfs].
  rewrite Hfs. reflexivity.
Qed.

(** X8.  Whatever the input and the answers of the libraries, [main]
    returns: with status 0 when it is given no argument, with status -1 in
    every other case. *)
Theorem main_exit_status (jn n : nat) (e : env) (argc : Z)
    (argv : list string) :
  outcome_of (main jn n e argc argv) =
    Return (if argc <? 2 then 0 else -1).
Proof.
  rewrite main_run.
  destruct (argc <? 2); [reflexivity|].
  destruct (negb (open_input_ret e =? 0)); [reflexivity|].
  destruct (find_stream_info_ret e <? 0); reflexivity.
Qed.

(** X9.  Whatever the input, [main] makes no call to the scheduler and runs
    no job, makes none of the codec and allocation calls of lines 135-152,
    and calls none of the release functions: an input that it opened is not
    closed. *)
Theorem main_never_reaches_scheduler (jn n : nat) (e : env) (argc : Z)
    (argv : list string) :
  filter is_sched (trace_of (main jn n e argc argv)) = [] /\
  filter is_codec_call (trace_of (main jn n e argc argv)) = [] /\
  filter is_cleanup (trace_of (main jn n e argc argv)) = [].
Proof.
  rewrite main_run.
  destruct (argc <? 2); [repeat constructor|].
  destruct (negb (open_input_ret e =? 0)); [repeat constructor|].
  destruct (find_stream_info_ret e <? 0); repeat constructor.
Qed.

(** X10.  When [avformat_open_input] fails, [main] says so and returns -1
    without calling [avformat_find_stream_info], and [pFormatCtx] is still
    [NULL]. *)
Theorem main_open_failure (jn n : nat) (e : env) (argc : Z)
    (argv : list string) :
  2 <= argc -> open_input_ret e <> 0 ->
  main jn n e argc argv =
    ([AvRegisterAll;
      AvformatOpenInput (nth 1 argv EmptyString) (open_input_ret e);
      Fprintf "Unable to open video file\n" []], initial_globals, Return (-1)).
Proof.
  intros Hargc Hopen. rewrite main_run.
  rewrite (proj2 (Z.ltb_ge argc 2)) by lia.
  rewrite (proj2 (Z.eqb_neq (open_input_ret e) 0)) by assumption.
  reflexivity.
Qed.

(** The input cannot be opened. *)
Lemma main_open_failure_witness :
  2 <= 2 /\ open_input_ret no_input_world <> 0 /\
  main 10 1 no_input_world 2 argv2 =
    ([AvRegisterAll;
      AvformatOpenInput (nth 1 argv2 EmptyString)
        (open_input_ret no_input_world);
      Fprintf "Unable to open video file\n" []], initial_globals, Return (-1)).
Proof.
  split; [lia|]. split; [discriminate|].
  apply (main_open_failure 10 1 no_input_world 2 argv2); [lia | discriminate].
Defined.

(** X11.  When the input opens and [avformat_find_stream_info] fails,
    [main] says so and returns -1 before it looks at any stream. *)
Theorem main_stream_info_failure (jn n : nat) (e : env) (argc : Z)
    (argv : list string) :
  2 <= argc -> open_input_ret e = 0 -> find_stream_info_ret e < 0 ->
  main jn n e argc argv =
    ([AvRegisterAll; AvformatOpenInput (nth 1 argv EmptyString) 0;
      AvformatFindStreamInfo (find_stream_info_ret e);
      Fprintf "Unable to open video stream\n" []],
     set_pFormatCtx (format_ctx e) initial_globals, Return (-1)).
Proof.
  intros Hargc Hopen Hinfo. rewrite main_run.
  rewrite (proj2 (Z.ltb_ge argc 2)) by lia.
  rewrite Hopen. cbn [Z.eqb negb].
  rewrite (proj2 (Z.ltb_lt (find_stream_info_ret e) 0)) by assumption.
  reflexivity.
Qed.

(** The streams of the input cannot be analysed. *)
Lemma main_stream_info_failure_witness :
  2 <= 2 /\ open_input_ret no_info_world = 0 /\
  find_stream_info_ret no_info_world < 0 /\
  main 10 1 no_info_world 2 argv2 =
    ([AvRegisterAll; AvformatOpenInput (nth 1 argv2 EmptyString) 0;
      AvformatFindStreamInfo (find_stream_info_ret no_info_world);
      Fprintf "Unable to open video stream\n" []],
     set_pFormatCtx (format_ctx no_info_world) initial_globals, Return (-1)).
Proof.
  split; [lia|]. split; [reflexivity|]. split; [reflexivity|].
  apply (main_stream_info_failure 10 1 no_info_world 2 argv2);
    [lia | reflexivity | reflexivity].
Defined.

(** ** The set-up of the decoder (lines 135-152) *)

Lemma decode_setup_run e job_fn n param g :
  decode_setup e job_fn n param g =
    let g1 := set_pCodec (find_decoder_ret e)
                (set_pCodecCtx (stream_codec e (vsi g)) g) in
    if find_decoder_ret e =? NULL then
      ([AvcodecFindDecoder (find_decoder_ret e);
        Fprintf "Unsupported codec\n" []], g1, Return (-1))
    else if codec_open2_ret e <? 0 then
      ([AvcodecFindDecoder (find_decoder_ret e);
        AvcodecOpen2 (codec_open2_ret e);
        Fprintf "Could not open codec\n" []], g1, Return (-1))
    else if frame_alloc_ret' e =? NULL then
      ([AvcodecFindDecoder (find_decoder_ret e);
        AvcodecOpen2 (codec_open2_ret e);
        AvFrameAlloc (frame_alloc_ret e); AvFrameAlloc (frame_alloc_ret' e)],
       set_pFrameRGB (frame_alloc_ret' e) (set_pFrame (frame_alloc_ret e) g1),
       Return (-1))
    else
      let '(t, g', o) := rt_section e job_fn n param (setup_globals e g) in
      (setup_calls e ++ t, g', o).
Proof.
  unfold decode_setup.
  cbv [bind read assign avcodec_find_decoder avcodec_open2 av_frame_alloc
       avpicture_get_size av_malloc fprintf call return_].
  cbn [pCodec set_pCodec pFrameRGB set_pFrameRGB].
  destruct (find_decoder_ret e =? NULL); [reflexivity|].
  destruct (codec_open2_ret e <? 0); [reflexivity|].
  destruct (frame_alloc_ret' e =? NULL); [reflexivity|].
  unfold setup_globals, setup_calls.
  destruct (rt_section e job_fn n param _) as [[t g'] o]. reflexivity.
Qed.

(** X12.  The set-up goes on to the admission exactly when a decoder was
    found, the codec opened and the second frame allocated; the results of
    the first [av_frame_alloc] and of [av_malloc] are not looked at.  When
    one of the three tests fails it returns -1, having called neither the
    scheduler nor any of the release functions. *)
Theorem decode_setup_gate (e : env)
    (job_fn : globals -> list av_event * globals * option Z)
    (n : nat) (param : rt_task) (g : globals) :
  if setup_ok e then
    decode_setup e job_fn n param g =
      (setup_calls e ++ trace_of (rt_section e job_fn n param (setup_globals e g)),
       globals_of (rt_section e job_fn n param (setup_globals e g)),
       outcome_of (rt_section e job_fn n param (setup_globals e g)))
  else
    outcome_of (decode_setup e job_fn n param g) = Return (-1) /\
    filter is_sched (trace_of (decode_setup e job_fn n param g)) = [] /\
    filter is_cleanup (trace_of (decode_setup e job_fn n param g)) = [].
Proof.
  rewrite decode_setup_run. unfold setup_ok. cbv zeta.
  destruct (find_decoder_ret e =? NULL); [repeat split|].
  destruct (codec_open2_ret e <? 0); [repeat split|].
  destruct (frame_alloc_ret' e =? NULL); [repeat split|].
  cbn [negb andb].
  destruct (rt_section e job_fn n param (setup_globals e g)) as [[t g'] o].
  reflexivity.
Qed.

(** A negative answer of [avpicture_get_size] is not looked at either: it is
    converted to [size_t] for [av_malloc], and the task is admitted. *)
Example setup_with_negative_size :
  setup_ok no_size_world = true /\
  trace_of (decode_setup no_size_world (job 10 no_size_world) 0 task_param
              (set_vsi 0 (set_pFormatCtx 1 initial_globals))) =
    [AvcodecFindDecoder 3; AvcodecOpen2 0; AvFrameAlloc 4; AvFrameAlloc 5;
     AvpictureGetSize (-22); AvMalloc 18446744073709551594 NULL;
     AvpictureFill] ++ enter_calls no_size_world task_param.
Proof. split; reflexivity. Qed.

(** With neither a first frame nor a conversion buffer, the task is admitted
    and the first job released all the same. *)
Example setup_without_memory :
  setup_ok no_memory_world = true /\
  trace_of (decode_setup no_memory_world (job 10 no_memory_world) 1 task_param
              (set_vsi 0 initial_globals)) =
    setup_calls no_memory_world ++ enter_calls no_memory_world task_param ++
    [SleepNextPeriod; Job [AvReadFrame AVERROR_EOF] (Some 0)].
Proof. split; reflexivity. Qed.

(** ** Leaving the job loop *)

Lemma job_loop_returns job_fn n : forall g,
  let r := job_loop job_fn n g in
  match outcome_of r with
  | Next _ =>
      exists k v, (k < n)%nat /\ v <> 0 /\
        job_returns (trace_of r) = repeat (Some 0) k ++ [Some v]
  | Return _ => False
  | Unfinished =>
      job_returns (trace_of r) = repeat (Some 0) n \/
      exists k, (k < n)%nat /\
        job_returns (trace_of r) = repeat (Some 0) k ++ [None]
  end.
Proof.
  induction n as [|n IH]; intros g; cbv zeta; [left; reflexivity|].
  rewrite job_loop_step.
  destruct (job_fn g) as [[t g1] [v|]];
    [|right; exists 0%nat; split; [lia | reflexivity]].
  destruct (Z.eqb_spec v 0) as [->|Hv];
    [|exists 0%nat, v; repeat split; [lia | assumption]].
  specialize (IH g1); cbv zeta in IH.
  destruct (job_loop job_fn n g1) as [[tl g2] o].
  unfold outcome_of, trace_of, wait_run in *.
  cbn [fst snd app job_returns] in *.
  destruct o as [[]|code|]; [| exact IH |].
  - destruct IH as (k & v & Hk & Hv & ->).
    exists (S k), v. repeat split; [lia | assumption].
  - destruct IH as [->|(k & Hk & ->)]; [left; reflexivity|].
    right. exists (S k). split; [lia | reflexivity].
Qed.

Lemma job_returns_exit e g : job_returns (exit_calls e g) = [].
Proof.
  unfold exit_calls.
  destruct (report_print "task_mode(BACKGROUND_TASK)"
              (task_mode_ret e BACKGROUND_TASK)) as [f ->].
  reflexivity.
Qed.

(** X13.  The job loop is left at the first job that returns a value other
    than 0, and for no other reason: when the real-time part of [main]
    returns, every job but the last returned 0 and the last did not; as long
    as it runs, every job that returned has returned 0. *)
Theorem loop_left_at_first_nonzero (e : env)
    (job_fn : globals -> list av_event * globals * option Z)
    (n : nat) (param : rt_task) (g : globals) :
  let r := rt_section e job_fn n param g in
  match outcome_of r with
  | Return _ =>
      exists k v, (k < n)%nat /\ v <> 0 /\
        job_returns (trace_of r) = repeat (Some 0) k ++ [Some v]
  | _ =>
      job_returns (trace_of r) = repeat (Some 0) n \/
      exists k, (k < n)%nat /\
        job_returns (trace_of r) = repeat (Some 0) k ++ [None]
  end.
Proof.
  cbv zeta. rewrite rt_section_run.
  pose proof (job_loop_returns job_fn n g) as H; cbv zeta in H.
  destruct (job_loop job_fn n g) as [[tl g1] o].
  unfold outcome_of, trace_of in *; cbn [fst snd] in *.
  destruct o as [[]|code|]; cbn [fst snd];
    rewrite ?job_returns_app, ?job_returns_enter, ?job_returns_exit,
      ?app_nil_r; cbn [app]; [exact H | contradiction | exact H].
Qed.

(** A job that returns 0 twice and then 1: the loop is left after the third
    period, and [main] returns 0. *)
Example third_job_run :
  outcome_of (rt_section eos_world third_job 5 task_param initial_globals) =
    Return 0 /\
  job_returns (trace_of (rt_section eos_world third_job 5 task_param
                           initial_globals)) = [Some 0; Some 0; Some 1].
Proof. split; reflexivity. Qed.

(** ** What the periods consume *)

Lemma job_calls_app t1 t2 : job_calls (t1 ++ t2) = job_calls t1 ++ job_calls t2.
Proof.
  induction t1 as [|ev t1 IH]; simpl; [reflexivity|].
  destruct ev; simpl; rewrite ?IH, ?app_assoc; reflexivity.
Qed.

Lemma job_calls_enter e param : job_calls (enter_calls e param) = [].
Proof.
  unfold enter_calls.
  destruct (report_print "init_litmus()" (init_litmus_ret e)) as [f1 ->].
  destruct (report_print "set_rt_task_param(gettid(), &param)"
              (set_rt_task_param_ret e)) as [f2 ->].
  destruct (report_print "task_mode(LITMUS_RT_TASK)"
              (task_mode_ret e LITMUS_RT_TASK)) as [f3 ->].
  reflexivity.
Qed.

Lemma job_loop_consumes jn e n : (10 <= jn)%nat -> forall g, ind_ok g ->
  let r := job_loop (job jn e) n g in
  av_pos (globals_of r) = (av_pos g + reads (job_calls (trace_of r)))%nat /\
  (n <= reads (job_calls (trace_of r)) <= 11 * n)%nat /\
  (scales (job_calls (trace_of r)) <= 5 * n)%nat.
Proof.
  intros Hjn. induction n as [|n IH]; intros g Hg; cbv zeta.
  - unfold globals_of, trace_of, reads, scales; simpl. lia.
  - rewrite job_loop_step.
    pose proof (job_for_counts jn e g (ind g)) as Hc.
    pose proof (job_for_batch jn e g (ind g) Hg) as Hb.
    pose proof (job_trace jn e g) as Ht.
    pose proof (job_av_pos jn e g) as Hp.
    destruct (job_keeps_ind_ok jn e g Hjn Hg) as (t & g1 & Hjob & Hg1).
    rewrite Hjob in *. cbn [fst snd] in Ht, Hp. simpl Z.eqb; cbv iota.
    destruct (job_for jn e g (ind g)) as [[t0 g0] fin].
    cbn [fst snd] in *. subst t0. rewrite <- Hp in Hc.
    destruct Hc as (Hr & Hpos & Hs).
    assert (Hbound : Z.of_nat (frees t + scales t) <= 11 /\
                     Z.of_nat (frees t) <= 10).
    { unfold ind_ok in Hg. specialize (Hb (proj1 Hg)).
      destruct (Z.ltb_spec (ind g) (ind g + 10)); lia. }
    specialize (IH g1 Hg1); cbv zeta in IH.
    destruct (job_loop (job jn e) n g1) as [[tl g2] o].
    unfold globals_of, trace_of in *; cbn [fst snd] in *.
    unfold wait_run; cbn [fst snd app job_calls].
    rewrite reads_app, scales_app. lia.
Qed.

(** X14.  With [job] for its job, in [n] periods the real-time part of
    [main] reads at least [n] and at most [11 * n] packets, the demuxer
    having moved by exactly the number of reads, and scales at most [5 * n]
    frames. *)
Theorem periods_consume (jn : nat) (e : env) (n : nat) (param : rt_task)
    (g : globals) :
  (10 <= jn)%nat -> ind_ok g ->
  let r := rt_section e (job jn e) n param g in
  av_pos (globals_of r) = (av_pos g + reads (job_calls (trace_of r)))%nat /\
  (n <= reads (job_calls (trace_of r)) <= 11 * n)%nat /\
  (scales (job_calls (trace_of r)) <= 5 * n)%nat.
Proof.
  intros Hjn Hg. cbv zeta. rewrite rt_section_run.
  pose proof (job_loop_consumes jn e n Hjn g Hg) as H; cbv zeta in H.
  destruct (job_loop_continues (job jn e) ind_ok
              (fun g0 => job_keeps_ind_ok jn e g0 Hjn) n g Hg)
    as (js & g' & Hloop & _).
  rewrite Hloop in *.
  unfold globals_of, trace_of in *; cbn [fst snd] in *.
  rewrite job_calls_app, job_calls_enter. exact H.
Qed.

(** Twenty-five video packets, four periods. *)
Lemma periods_consume_witness :
  (10 <= 10)%nat /\ ind_ok initial_globals /\
  (let r := rt_section video_world (job 10 video_world) 4 task_param
              initial_globals in
   av_pos (globals_of r) =
     (av_pos initial_globals + reads (job_calls (trace_of r)))%nat /\
   (4 <= reads (job_calls (trace_of r)) <= 11 * 4)%nat /\
   (scales (job_calls (trace_of r)) <= 5 * 4)%nat).
Proof.
  split; [lia|]. split; [exact ind_ok_initial|].
  apply (periods_consume 10 video_world 4 task_param initial_globals);
    [lia | exact ind_ok_initial].
Defined.

(** ** The release of what the set-up acquired *)

Lemma same_pointers_trans g1 g2 g3 :
  same_pointers g1 g2 -> same_pointers g2 g3 -> same_pointers g1 g3.
Proof. unfold same_pointers; intuition congruence. Qed.

Lemma job_loop_pointers job_fn n :
  (forall g, same_pointers g (snd (fst (job_fn g)))) ->
  forall g, same_pointers g (globals_of (job_loop job_fn n g)).
Proof.
  intros Hjob. induction n as [|n IH]; intros g.
  - repeat split.
  - rewrite job_loop_step. specialize (Hjob g).
    destruct (job_fn g) as [[t g1] [v|]]; cbn [fst snd] in Hjob;
      [|exact Hjob].
    destruct (v =? 0); [|exact Hjob].
    specialize (IH g1).
    destruct (job_loop job_fn n g1) as [[tl g2] o].
    unfold globals_of in *; cbn [fst snd] in *.
    eapply same_pointers_trans; eassumption.
Qed.

Lemma cleanup_periods js : filter is_cleanup (flat_map wait_run js) = [].
Proof. induction js as [|j js IH]; simpl; congruence. Qed.

Lemma cleanup_enter e param : filter is_cleanup (enter_calls e param) = [].
Proof.
  unfold enter_calls.
  destruct (report_print "init_litmus()" (init_litmus_ret e)) as [f1 ->].
  destruct (report_print "set_rt_task_param(gettid(), &param)"
              (set_rt_task_param_ret e)) as [f2 ->].
  destruct (report_print "task_mode(LITMUS_RT_TASK)"
              (task_mode_ret e LITMUS_RT_TASK)) as [f3 ->].
  reflexivity.
Qed.

Lemma cleanup_exit e g : filter is_cleanup (exit_calls e g) =
  [AvFree (buffer g); AvFree (pFrameRGB g); AvFree (pFrame g);
   AvcodecClose; AvformatCloseInput].
Proof.
  unfold exit_calls.
  destruct (report_print "task_mode(BACKGROUND_TASK)"
              (task_mode_ret e BACKGROUND_TASK)) as [f ->].
  reflexivity.
Qed.

(** X15.  When the part of [main] from the codec set-up on returns 0, with a
    job that leaves the pointers alone (as [job] does), it has released
    exactly what it acquired, once each and in this order: the conversion
    buffer, the second frame, the first frame, the codec, the input; and
    [pFormatCtx] is [NULL] again. *)
Theorem cleanup_releases_setup (e : env)
    (job_fn : globals -> list av_event * globals * option Z)
    (n : nat) (param : rt_task) (g : globals) :
  (forall g0, same_pointers g0 (snd (fst (job_fn g0)))) ->
  outcome_of (decode_setup e job_fn n param g) = Return 0 ->
  filter is_cleanup (trace_of (decode_setup e job_fn n param g)) =
    [AvFree (malloc_ret e); AvFree (frame_alloc_ret' e);
     AvFree (frame_alloc_ret e); AvcodecClose; AvformatCloseInput] /\
  pFormatCtx (globals_of (decode_setup e job_fn n param g)) = NULL.
Proof.
  intros Hjob. rewrite decode_setup_run. cbv zeta.
  destruct (find_decoder_ret e =? NULL); [discriminate|].
  destruct (codec_open2_ret e <? 0); [discriminate|].
  destruct (frame_alloc_ret' e =? NULL); [discriminate|].
  rewrite rt_section_run.
  pose proof (job_loop_pointers job_fn n Hjob (setup_globals e g)) as Hp.
  pose proof (job_loop_no_return job_fn n (setup_globals e g)) as Hnr.
  destruct (job_loop_periods job_fn n (setup_globals e g)) as [js Hjs].
  destruct (job_loop job_fn n (setup_globals e g)) as [[tl g1] o].
  unfold outcome_of, trace_of, globals_of in *; cbn [fst snd] in *. subst tl.
  destruct o as [[]|code|]; cbn [fst snd]; try discriminate.
  - intros _. split; [|reflexivity].
    rewrite !filter_app, cleanup_enter, cleanup_periods, cleanup_exit.
    destruct Hp as (_ & _ & _ & Hf & Hrgb & Hbuf & _).
    rewrite Hf, Hrgb, Hbuf. reflexivity.
  - now contradiction (Hnr code).
Qed.

(** A job that stops at once; every set-up call succeeds. *)
Lemma cleanup_releases_setup_witness :
  (forall g0, same_pointers g0 (snd (fst (stop_job g0)))) /\
  outcome_of (decode_setup video_world stop_job 1 task_param
                (set_vsi 0 initial_globals)) = Return 0 /\
  (filter is_cleanup
     (trace_of (decode_setup video_world stop_job 1 task_param
                  (set_vsi 0 initial_globals))) =
     [AvFree (malloc_ret video_world); AvFree (frame_alloc_ret' video_world);
      AvFree (frame_alloc_ret video_world); AvcodecClose; AvformatCloseInput] /\
   pFormatCtx (globals_of (decode_setup video_world stop_job 1 task_param
                             (set_vsi 0 initial_globals))) = NULL).
Proof.
  assert (H : forall g0, same_pointers g0 (snd (fst (stop_job g0))))
    by (intros g0; repeat split).
  split; [exact H|]. split; [reflexivity|].
  apply (cleanup_releases_setup video_world stop_job 1 task_param
           (set_vsi 0 initial_globals)); [exact H | reflexivity].
Defined.
